(** * Verification of the project scaffolding generators

    The repository holds two command-line generators:
    - [src/scaffold.py]: the data-project generator ([Scaffold.create_project]);
    - [src/scaffold_package.py]: the package-project generator
      ([ScaffoldPackage.create_project_structure]).

    Both are straight-line sequences of [pathlib]/[os] calls. They are embedded
    here as programs of a small state-and-error monad over a model of a POSIX
    file system, and the properties of the specification are proved about the
    embedded programs. *)

From stdpp Require Import gmap strings list fin_maps pretty.
From Stdlib Require Import NArith Ascii.

Local Open Scope N_scope.

(** ** Text *)

(** The line-feed character and the double-quote character, as strings. *)
Definition nl : string := String "010"%char EmptyString.
Definition dq : string := String "034"%char EmptyString.

(** [unlines ls]: every line followed by a line feed.
    [join_lines ls]: the lines separated by line feeds. *)
Fixpoint unlines (ls : list string) : string :=
  match ls with
  | [] => EmptyString
  | l :: ls' => l +:+ nl +:+ unlines ls'
  end.

Fixpoint join_lines (ls : list string) : string :=
  match ls with
  | [] => EmptyString
  | [l] => l
  | l :: ls' => l +:+ nl +:+ join_lines ls'
  end.

(** [contains s sub]: [sub] occurs in [s] (Python's [sub in s]). *)
Definition contains (s sub : string) : Prop :=
  ∃ pre post : string, s = pre +:+ sub +:+ post.

(** ** [pathlib.PurePosixPath] *)

(** A pure path is an anchor (no root, [/], or the POSIX double slash [//])
    and the list of its components. *)
Inductive anchor := Relative | Slash | DoubleSlash.

Record Path := MkPath { path_anchor : anchor; parts : list string }.

Global Instance anchor_eq_dec : EqDecision anchor.
Proof. solve_decision. Defined.
Global Instance Path_eq_dec : EqDecision Path.
Proof. solve_decision. Defined.

(** [str.split(sep)] for a one-character separator. *)
Fixpoint split_on (sep : ascii) (s : string) : list string :=
  match s with
  | EmptyString => [EmptyString]
  | String c s' =>
      if decide (c = sep) then EmptyString :: split_on sep s'
      else match split_on sep s' with
           | [] => [String c EmptyString]
           | w :: ws => String c w :: ws
           end
  end.

(** [posixpath.splitroot]: one leading slash or three and more give the root
    [/], exactly two give [//]. *)
Definition splitroot (p : string) : anchor * string :=
  match p with
  | String "/" (String "/" (String "/" r)) => (Slash, String "/" (String "/" r))
  | String "/" (String "/" r) => (DoubleSlash, r)
  | String "/" r => (Slash, r)
  | _ => (Relative, p)
  end.

(** A component is kept when it is neither empty nor [.]. *)
Definition keep_part (x : string) : bool :=
  negb (bool_decide (x = EmptyString)) && negb (bool_decide (x = ".")).

(** [Path(s)]: the root is split off, the rest is cut at the slashes. *)
Definition parse_path (s : string) : Path :=
  let '(a, rel) := splitroot s in
  MkPath a (filter (λ x, keep_part x = true) (split_on "/" rel)).

(** [p / q] for two paths: an anchored right operand replaces the left one. *)
Definition joinpath (p q : Path) : Path :=
  match path_anchor q with
  | Relative => MkPath (path_anchor p) (parts p ++ parts q)
  | _ => q
  end.

(** [p / s] for a string [s]. *)
Definition truediv (p : Path) (s : string) : Path := joinpath p (parse_path s).

Global Arguments joinpath : simpl never.
Global Arguments truediv : simpl never.

Infix "</>" := truediv (at level 40, left associativity) : stdpp_scope.
Infix "<//>" := joinpath (at level 40, left associativity) : stdpp_scope.


(** [q] lies at or below [p]. *)
Definition is_ancestor_or_self (p q : Path) : Prop :=
  path_anchor p = path_anchor q ∧ parts p `prefix_of` parts q.

(** ** The file system *)

(** A node is a regular file (content and permission bits) or a directory
    (permission bits). Nodes are keyed by their absolute position, the list of
    names from the root; the root directory has the key [[]]. Symbolic links and
    access checks are outside the model. *)
Inductive node :=
  | File (content : string) (mode : N)
  | Dir (mode : N).

Global Instance node_eq_dec : EqDecision node.
Proof. solve_decision. Defined.

(** The errors of the calls ([FileNotFoundError], [FileExistsError],
    [NotADirectoryError], [IsADirectoryError]). *)
Inductive errno := ENOENT | EEXIST | ENOTDIR | EISDIR.

Global Instance errno_eq_dec : EqDecision errno.
Proof. solve_decision. Defined.

Inductive result (A : Type) :=
  | Ok (a : A)
  | Err (e : errno).
Arguments Ok {A} a.
Arguments Err {A} e.

(** What a generator asks of the operating system, in call order. *)
Inductive event :=
  | EMkdir (p : Path)                      (* Path.mkdir(parents=True, exist_ok=True) *)
  | ETouch (p : Path)                      (* Path.touch() *)
  | EWrite (p : Path) (content : string)   (* open(p, 'w') and f.write(content) *)
  | EChmod (p : Path) (mode : N)           (* os.chmod(p, mode) *)
  | EClock (year : N).                     (* datetime.now().year *)

Global Instance event_eq_dec : EqDecision event.
Proof. solve_decision. Defined.

(** The world a generator runs in: the file tree, the working directory and
    the umask of the process, a clock ([calendar t] is the calendar year at
    instant [t]; every call takes one instant), and the log of the calls. *)
Record world := MkWorld {
  fs : gmap (list string) node;
  cwd : list string;
  umask : N;
  ticks : nat;
  calendar : nat → N;
  log : list event
}.

(** The world with the file tree [m]. *)
Definition set_fs (w : world) (m : gmap (list string) node) : world :=
  MkWorld m (cwd w) (umask w) (ticks w) (calendar w) (log w).

(** The world one instant later, with the call [ev] logged. *)
Definition tick (ev : event) (w : world) : world :=
  MkWorld (fs w) (cwd w) (umask w) (S (ticks w)) (calendar w) (log w ++ [ev]).

(** *** Path resolution *)

(** One step of the walk: [..] goes to the parent (the root is its own
    parent), a name goes to the child. *)
Definition step (cur : list string) (c : string) : list string :=
  if decide (c = "..") then removelast cur else cur ++ [c].

(** The walk along the components: every position that is walked through must
    be a directory. The position reached is returned, present or not. *)
Fixpoint walk (m : gmap (list string) node) (cur : list string) (comps : list string)
    : result (list string) :=
  match comps with
  | [] => Ok cur
  | c :: rest =>
      match m !! cur with
      | Some (Dir _) => walk m (step cur c) rest
      | Some (File _ _) => Err ENOTDIR
      | None => Err ENOENT
      end
  end.

Definition start (w : world) (p : Path) : list string :=
  match path_anchor p with
  | Relative => cwd w
  | _ => []
  end.

Definition resolve (w : world) (p : Path) : result (list string) :=
  walk (fs w) (start w p) (parts p).

(** [p.is_dir()] *)
Definition is_dir (w : world) (p : Path) : bool :=
  match resolve w p with
  | Ok k => match fs w !! k with Some (Dir _) => true | _ => false end
  | Err _ => false
  end.

(** The content of the regular file at [p], as a later [open(p).read()]. *)
Definition read_file (w : world) (p : Path) : result string :=
  match resolve w p with
  | Ok k =>
      match fs w !! k with
      | Some (File c _) => Ok c
      | Some (Dir _) => Err EISDIR
      | None => Err ENOENT
      end
  | Err e => Err e
  end.

(** The permission bits of the node at [p], as [os.stat(p).st_mode & 0o7777]. *)
Definition stat_mode (w : world) (p : Path) : result N :=
  match resolve w p with
  | Ok k =>
      match fs w !! k with
      | Some (File _ m) => Ok m
      | Some (Dir m) => Ok m
      | None => Err ENOENT
      end
  | Err e => Err e
  end.

(** Permission bits written as three octal digits: [octal 7 5 5] is [0o755]. *)
Definition octal (u g o : N) : N := u * 64 + g * 8 + o.

(** The permission bits of a node created with [mode] under the umask. *)
Definition creation_mode (w : world) (mode : N) : N := N.ldiff mode (umask w).

(** ** The monad of the generators *)

Definition M (A : Type) : Type := world → result (A * world).

Global Instance M_ret : MRet M := λ A a w, Ok (a, w).
Global Instance M_bind : MBind M := λ A B f m w,
  match m w with
  | Ok (a, w') => f a w'
  | Err e => Err e
  end.

(** [for x in xs: body(x)] *)
Fixpoint for_each {A : Type} (xs : list A) (body : A → M unit) : M unit :=
  match xs with
  | [] => mret tt
  | x :: xs' => body x ;; for_each xs' body
  end.

(** *** The calls *)

(** [os.mkdir(p)]: one directory; the walk makes sure that its parent is one. *)
Definition os_mkdir (p : Path) (w : world) : result world :=
  match resolve w p with
  | Ok k =>
      match fs w !! k with
      | Some _ => Err EEXIST
      | None => Ok (set_fs w (<[k := Dir (creation_mode w (octal 7 7 7))]> (fs w)))
      end
  | Err e => Err e
  end.

(** [Path.mkdir(parents=False, exist_ok=True)]: a missing parent is an error,
    any other failure is forgiven when the path is a directory. *)
Definition mkdir_exist_ok (p : Path) (w : world) : result world :=
  match os_mkdir p w with
  | Ok w' => Ok w'
  | Err ENOENT => Err ENOENT
  | Err e => if is_dir w p then Ok w else Err e
  end.

(** [Path.mkdir(parents=True, exist_ok=True)] as [pathlib] has it: try
    [os.mkdir]; when a parent is missing, make the parent in the same way and
    try once more. The recursion is on the components, last one first. *)
Fixpoint mkdir_parents (a : anchor) (rparts : list string) (w : world) : result world :=
  let self := MkPath a (rev rparts) in
  match os_mkdir self w with
  | Ok w' => Ok w'
  | Err ENOENT =>
      match rparts with
      | [] => Err ENOENT
      | _ :: up =>
          match mkdir_parents a up w with
          | Ok w1 => mkdir_exist_ok self w1
          | Err e => Err e
          end
      end
  | Err e => if is_dir w self then Ok w else Err e
  end.

Definition Path_mkdir (p : Path) : M unit := λ w,
  match mkdir_parents (path_anchor p) (rev (parts p)) w with
  | Ok w' => Ok (tt, tick (EMkdir p) w')
  | Err e => Err e
  end.

(** [Path.touch()]: an existing node keeps its content ([os.utime] only
    stamps it), a missing one becomes an empty regular file. *)
Definition Path_touch (p : Path) : M unit := λ w,
  match resolve w p with
  | Ok k =>
      match fs w !! k with
      | Some _ => Ok (tt, tick (ETouch p) w)
      | None =>
          Ok (tt, tick (ETouch p)
                    (set_fs w (<[k := File EmptyString (creation_mode w (octal 6 6 6))]> (fs w))))
      end
  | Err e => Err e
  end.

(** [with open(p, 'w') as f: f.write(content)]: a regular file is truncated
    and keeps its permission bits, a missing one is created, a directory is
    refused. *)
Definition write_text (p : Path) (content : string) : M unit := λ w,
  match resolve w p with
  | Ok k =>
      match fs w !! k with
      | Some (Dir _) => Err EISDIR
      | Some (File _ m) =>
          Ok (tt, tick (EWrite p content) (set_fs w (<[k := File content m]> (fs w))))
      | None =>
          Ok (tt, tick (EWrite p content)
                    (set_fs w (<[k := File content (creation_mode w (octal 6 6 6))]> (fs w))))
      end
  | Err e => Err e
  end.

(** [os.chmod(p, mode)] *)
Definition os_chmod (p : Path) (mode : N) : M unit := λ w,
  match resolve w p with
  | Ok k =>
      match fs w !! k with
      | Some (File c _) => Ok (tt, tick (EChmod p mode) (set_fs w (<[k := File c mode]> (fs w))))
      | Some (Dir _) => Ok (tt, tick (EChmod p mode) (set_fs w (<[k := Dir mode]> (fs w))))
      | None => Err ENOENT
      end
  | Err e => Err e
  end.

(** [datetime.now().year] *)
Definition now_year : M N := λ w,
  let y := calendar w (ticks w) in Ok (y, tick (EClock y) w).

(** ** [src/scaffold.py]: the data-project generator *)

Module Scaffold.

(** The text of [run.bash]. The two [\n] of the Python literal are line feeds
    in the text, so each of the two [echo -e] lines is broken after its
    opening quote. *)
Definition run_bash_content : string := unlines
  [ "#!/bin/bash";
    EmptyString;
    "# Create bash directory if it doesn't exist";
    "mkdir -p bash";
    EmptyString;
    "# Set log file paths";
    "LOG_FILE=" +:+ dq +:+ "bash/pipeline_execution.log" +:+ dq;
    "ERROR_LOG=" +:+ dq +:+ "bash/pipeline_errors.log" +:+ dq;
    EmptyString;
    "# Clear previous logs";
    "> " +:+ dq +:+ "$LOG_FILE" +:+ dq;
    "> " +:+ dq +:+ "$ERROR_LOG" +:+ dq;
    EmptyString;
    "# Record start time";
    "echo " +:+ dq +:+ "Pipeline execution started at $(date)" +:+ dq +:+ " | tee -a " +:+ dq +:+ "$LOG_FILE" +:+ dq;
    EmptyString;
    "# Define script list";
    "SCRIPTS=(";
    "    " +:+ dq +:+ "script1.py" +:+ dq;
    "    " +:+ dq +:+ "script2.py" +:+ dq;
    "    " +:+ dq +:+ "script3.py" +:+ dq;
    "    # Add more scripts here";
    ")";
    EmptyString;
    "# Run each script";
    "for script in " +:+ dq +:+ "${SCRIPTS[@]}" +:+ dq +:+ "; do";
    "    echo -e " +:+ dq;
    "=== Running $script ===" +:+ dq +:+ " | tee -a " +:+ dq +:+ "$LOG_FILE" +:+ dq;
    "    ";
    "    # Check if file exists";
    "    if [ ! -f " +:+ dq +:+ "$script" +:+ dq +:+ " ]; then";
    "        echo " +:+ dq +:+ "Error: Script $script not found!" +:+ dq +:+ " | tee -a " +:+ dq +:+ "$ERROR_LOG" +:+ dq;
    "        continue";
    "    fi";
    "    ";
    "    # Record start time";
    "    start_time=$(date +%s)";
    "    start_datetime=$(date)";
    "    ";
    "    # Run Python script and wait for completion";
    "    python " +:+ dq +:+ "$script" +:+ dq +:+ " 2>> " +:+ dq +:+ "$ERROR_LOG" +:+ dq +:+ " && wait";
    "    ";
    "    if [ $? -eq 0 ]; then";
    "        # Calculate execution time";
    "        end_time=$(date +%s)";
    "        end_datetime=$(date)";
    "        duration=$((end_time - start_time))";
    "        ";
    "        # Convert duration to readable format";
    "        hours=$((duration / 3600))";
    "        minutes=$(( (duration % 3600) / 60 ))";
    "        seconds=$((duration % 60))";
    "        ";
    "        echo " +:+ dq +:+ "✓ Successfully completed $script" +:+ dq +:+ " | tee -a " +:+ dq +:+ "$LOG_FILE" +:+ dq;
    "        echo " +:+ dq +:+ "Started at: $start_datetime" +:+ dq +:+ " | tee -a " +:+ dq +:+ "$LOG_FILE" +:+ dq;
    "        echo " +:+ dq +:+ "Finished at: $end_datetime" +:+ dq +:+ " | tee -a " +:+ dq +:+ "$LOG_FILE" +:+ dq;
    "        echo " +:+ dq +:+ "Duration: ${hours}h ${minutes}m ${seconds}s" +:+ dq +:+ " | tee -a " +:+ dq +:+ "$LOG_FILE" +:+ dq;
    "    else";
    "        echo " +:+ dq +:+ "✗ Failed to execute $script" +:+ dq +:+ " | tee -a " +:+ dq +:+ "$LOG_FILE" +:+ dq;
    "        echo " +:+ dq +:+ "Check $ERROR_LOG for details" +:+ dq;
    "        ";
    "        read -p " +:+ dq +:+ "Continue with next script? (y/n) " +:+ dq +:+ " -n 1 -r";
    "        echo";
    "        if [[ ! $REPLY =~ ^[Yy]$ ]]; then";
    "            echo " +:+ dq +:+ "Pipeline execution stopped by user" +:+ dq +:+ " | tee -a " +:+ dq +:+ "$LOG_FILE" +:+ dq;
    "            exit 1";
    "        fi";
    "    fi";
    "done";
    EmptyString;
    "echo -e " +:+ dq;
    "Pipeline execution completed at $(date)" +:+ dq +:+ " | tee -a " +:+ dq +:+ "$LOG_FILE" +:+ dq ].

Definition create_run_bash (project_path : Path) : M unit :=
  write_text (project_path </> "run.bash") run_bash_content ;;
  os_chmod (project_path </> "run.bash") (octal 7 5 5).

Definition helpers_content : string := unlines
  [ "import os";
    "from pathlib import Path";
    EmptyString;
    "def set_working_directory() -> Path:";
    "    " +:+ dq +:+ dq +:+ dq;
    "    Set the working directory to the project root.";
    "    This function should be called at the beginning of each script.";
    "    ";
    "    Returns:";
    "        Path: Project root directory path";
    "    " +:+ dq +:+ dq +:+ dq;
    "    # Get the directory of the current script";
    "    current_dir = Path(os.path.dirname(os.path.abspath(__file__)))";
    "    ";
    "    # Set working directory to project root (parent of current script)";
    "    os.chdir(current_dir)";
    "    ";
    "    return current_dir";
    EmptyString;
    "def setup_paths() -> dict:";
    "    " +:+ dq +:+ dq +:+ dq;
    "    Create a dictionary of important project paths.";
    "    ";
    "    Returns:";
    "        dict: Dictionary containing paths for different project directories";
    "    " +:+ dq +:+ dq +:+ dq;
    "    root_dir = set_working_directory()";
    "    ";
    "    paths = {";
    "        'root': root_dir,";
    "        'data': root_dir / 'data',";
    "        'output': root_dir / 'output',";
    "        'logs': root_dir / 'logs',";
    "        'bash': root_dir / 'bash'";
    "    }";
    "    ";
    "    return paths";
    EmptyString;
    "# Example usage:";
    "if __name__ == " +:+ dq +:+ "__main__" +:+ dq +:+ ":";
    "    # Set working directory";
    "    project_dir = set_working_directory()";
    "    print(f" +:+ dq +:+ "Working directory set to: {project_dir}" +:+ dq +:+ ")";
    "    ";
    "    # Get project paths";
    "    paths = setup_paths()";
    "    print(" +:+ dq +:+ "Project paths:" +:+ dq +:+ ")";
    "    for key, path in paths.items():";
    "        print(f" +:+ dq +:+ "{key}: {path}" +:+ dq +:+ ")" ].

Definition create_helpers (project_path : Path) : M unit :=
  write_text (project_path </> "helpers.py") helpers_content.

Definition license_content (current_year : N) : string := unlines
  [ "MIT License";
    EmptyString;
    "Copyright (c) " +:+ pretty current_year +:+ " Jeremy";
    EmptyString;
    "Permission is hereby granted, free of charge, to any person obtaining a copy";
    "of this software and associated documentation files (the " +:+ dq +:+ "Software" +:+ dq +:+ "), to deal";
    "in the Software without restriction, including without limitation the rights";
    "to use, copy, modify, merge, publish, distribute, sublicense, and/or sell";
    "copies of the Software, and to permit persons to whom the Software is";
    "furnished to do so, subject to the following conditions:";
    EmptyString;
    "The above copyright notice and this permission notice shall be included in all";
    "copies or substantial portions of the Software.";
    EmptyString;
    "THE SOFTWARE IS PROVIDED " +:+ dq +:+ "AS IS" +:+ dq +:+ ", WITHOUT WARRANTY OF ANY KIND, EXPRESS OR";
    "IMPLIED, INCLUDING BUT NOT LIMITED TO THE WARRANTIES OF MERCHANTABILITY,";
    "FITNESS FOR A PARTICULAR PURPOSE AND NONINFRINGEMENT. IN NO EVENT SHALL THE";
    "AUTHORS OR COPYRIGHT HOLDERS BE LIABLE FOR ANY CLAIM, DAMAGES OR OTHER";
    "LIABILITY, WHETHER IN AN ACTION OF CONTRACT, TORT OR OTHERWISE, ARISING FROM,";
    "OUT OF OR IN CONNECTION WITH THE SOFTWARE OR THE USE OR OTHER DEALINGS IN THE";
    "SOFTWARE." ].

Definition create_license (project_path : Path) : M unit :=
  current_year ← now_year ;
  write_text (project_path </> "LICENSE") (license_content current_year).

Definition gitignore_content : string := unlines
  [ "# Ignore everything";
    "*";
    EmptyString;
    "# But not these files...";
    "!.gitignore";
    "!README.md";
    "!LICENSE" ].

Definition create_gitignore (project_path : Path) : M unit :=
  write_text (project_path </> ".gitignore") gitignore_content.

Definition readme_content : string := join_lines
  [ "# Project Title" ].

Definition create_readme (project_path : Path) : M unit :=
  write_text (project_path </> "README.md") readme_content.

(** The second [.gitignore] text, local to [create_project] in the source. *)
Definition final_gitignore_content : string := join_lines
  [ "# ignore all";
    "*";
    EmptyString;
    "# except for these files";
    "!README.md";
    "!.gitignore";
    "!*.py";
    "!*.bash" ].

Definition directories : list string := ["data"; "output"; "logs"; "bash"].

Definition create_project (project_name : string) (base_path : Path) : M unit :=
  let project_path := base_path </> project_name in
  for_each directories (λ dir_path, Path_mkdir (project_path </> dir_path)) ;;
  Path_touch (project_path </> "config.py") ;;
  create_helpers project_path ;;
  create_gitignore project_path ;;
  create_license project_path ;;
  create_readme project_path ;;
  create_run_bash project_path ;;
  os_chmod (project_path </> "run.bash") (octal 7 5 5) ;;
  write_text (project_path </> ".gitignore") final_gitignore_content.

End Scaffold.

(** ** [src/scaffold_package.py]: the package-project generator *)

Module ScaffoldPackage.

Definition init_content (package_name : string) : string := unlines
  [ dq +:+ dq +:+ dq;
    package_name +:+ " - Python package scaffold";
    dq +:+ dq +:+ dq;
    EmptyString;
    "__version__ = " +:+ dq +:+ "0.1.0" +:+ dq;
    "__author__ = " +:+ dq +:+ "Jeremy" +:+ dq ].

Definition create_init_file (project_path : Path) (package_name : string) : M unit :=
  write_text (project_path </> "src" </> package_name </> "__init__.py")
             (init_content package_name).

Definition base_content : string := unlines
  [ "from abc import ABC, abstractmethod";
    EmptyString;
    "class BaseClass(ABC):";
    "    " +:+ dq +:+ dq +:+ dq +:+ "Abstract base class template." +:+ dq +:+ dq +:+ dq;
    "    ";
    "    def __init__(self):";
    "        " +:+ dq +:+ dq +:+ dq +:+ "Initialize base class." +:+ dq +:+ dq +:+ dq;
    "        pass";
    "        ";
    "    @abstractmethod";
    "    def process(self):";
    "        " +:+ dq +:+ dq +:+ dq +:+ "Template method to be implemented by subclasses." +:+ dq +:+ dq +:+ dq;
    "        pass" ].

Definition create_base_file (project_path : Path) (package_name : string) : M unit :=
  write_text (project_path </> "src" </> package_name </> "base.py") base_content.

Definition test_content : string := unlines
  [ EmptyString ].

Definition create_test_file (project_path : Path) : M unit :=
  write_text (project_path </> "tests" </> "test_module1.py") test_content.

Definition example_content : string := unlines
  [ EmptyString;
    "# Add example usage here" ].

Definition create_example_file (project_path : Path) (package_name : string) : M unit :=
  write_text (project_path </> "examples" </> "basic_usage.py") example_content.

Definition pyproject_content (package_name : string) : string := unlines
  [ "[build-system]";
    "requires = [" +:+ dq +:+ "setuptools>=45" +:+ dq +:+ ", " +:+ dq +:+ "wheel" +:+ dq +:+ "]";
    "build-backend = " +:+ dq +:+ "setuptools.build_meta" +:+ dq;
    EmptyString;
    "[project]";
    "name = " +:+ dq +:+ package_name +:+ dq;
    "version = " +:+ dq +:+ "0.1.0" +:+ dq;
    "requires-python = " +:+ dq +:+ ">=3.8" +:+ dq;
    EmptyString;
    "[tool.black]";
    "line-length = 88";
    "target-version = [" +:+ dq +:+ "py38" +:+ dq +:+ "]";
    EmptyString;
    "[tool.isort]";
    "profile = " +:+ dq +:+ "black" +:+ dq;
    "multi_line_output = 3" ].

Definition create_pyproject_toml (project_path : Path) (package_name : string) : M unit :=
  write_text (project_path </> "pyproject.toml") (pyproject_content package_name).

Definition readme_content (package_name : string) : string := unlines
  [ "# " +:+ package_name;
    "## Installation";
    EmptyString;
    "```bash";
    "pip install -e .";
    "```";
    EmptyString;
    "## Usage";
    EmptyString;
    "```python";
    "from " +:+ package_name +:+ ".base import BaseClass";
    "```" ].

Definition create_readme (project_path : Path) (package_name : string) : M unit :=
  write_text (project_path </> "README.md") (readme_content package_name).

Definition license_content (current_year : N) : string := unlines
  [ "MIT License";
    EmptyString;
    "Copyright (c) " +:+ pretty current_year +:+ " Jeremy";
    EmptyString;
    "Permission is hereby granted, free of charge, to any person obtaining a copy";
    "of this software and associated documentation files (the " +:+ dq +:+ "Software" +:+ dq +:+ "), to deal";
    "in the Software without restriction, including without limitation the rights";
    "to use, copy, modify, merge, publish, distribute, sublicense, and/or sell";
    "copies of the Software, and to permit persons to whom the Software is";
    "furnished to do so, subject to the following conditions:";
    EmptyString;
    "The above copyright notice and this permission notice shall be included in all";
    "copies or substantial portions of the Software.";
    EmptyString;
    "THE SOFTWARE IS PROVIDED " +:+ dq +:+ "AS IS" +:+ dq +:+ ", WITHOUT WARRANTY OF ANY KIND, EXPRESS OR";
    "IMPLIED, INCLUDING BUT NOT LIMITED TO THE WARRANTIES OF MERCHANTABILITY,";
    "FITNESS FOR A PARTICULAR PURPOSE AND NONINFRINGEMENT. IN NO EVENT SHALL THE";
    "AUTHORS OR COPYRIGHT HOLDERS BE LIABLE FOR ANY CLAIM, DAMAGES OR OTHER";
    "LIABILITY, WHETHER IN AN ACTION OF CONTRACT, TORT OR OTHERWISE, ARISING FROM,";
    "OUT OF OR IN CONNECTION WITH THE SOFTWARE OR THE USE OR OTHER DEALINGS IN THE";
    "SOFTWARE." ].

Definition create_license (project_path : Path) : M unit :=
  current_year ← now_year ;
  write_text (project_path </> "LICENSE") (license_content current_year).

Definition gitignore_content : string := unlines
  [ "# Ignore everything";
    "*";
    EmptyString;
    "# But not these files...";
    "!.gitignore";
    "!README.md";
    "!LICENSE" ].

Definition create_gitignore (project_path : Path) : M unit :=
  write_text (project_path </> ".gitignore") gitignore_content.

Definition directories (project_name : string) : list Path :=
  [ parse_path "src" </> project_name;
    parse_path "tests" </> "test_data";
    parse_path "examples" ].

Definition create_project_structure (project_name : string) (base_path : Path) : M unit :=
  let project_path := base_path </> project_name in
  for_each (directories project_name) (λ dir_path, Path_mkdir (project_path <//> dir_path)) ;;
  create_init_file project_path project_name ;;
  create_base_file project_path project_name ;;
  create_test_file project_path ;;
  create_example_file project_path project_name ;;
  create_pyproject_toml project_path project_name ;;
  create_readme project_path project_name ;;
  create_license project_path ;;
  create_gitignore project_path.

End ScaffoldPackage.

(** * The vocabulary of the properties *)

Section Vocabulary.

Implicit Types (m : gmap (list string) node) (w : world) (k cur K Ks Kb : list string)
  (d p P : Path) (x y : string) (xs ys : list string) (um : N).

(** A name that is one ordinary component: not empty, without a slash,
    and neither [.] nor [..]. *)
Definition simple_name (x : string) : Prop :=
  parse_path x = MkPath Relative [x] ∧ x ≠ "..".

Global Instance simple_name_dec x : Decision (simple_name x).
Proof. unfold simple_name. apply _. Defined.

(** [m'] has a directory wherever [m] has one. *)
Definition dir_le m m' : Prop :=
  ∀ k md, m !! k = Some (Dir md) → ∃ md', m' !! k = Some (Dir md').

(** The environment of the process is the same in both worlds. *)
Definition same_env w w' : Prop :=
  cwd w' = cwd w ∧ umask w' = umask w ∧ calendar w' = calendar w.

(** [w'] is a later world of the same process that lost no directory. *)
Definition extends w w' : Prop := same_env w w' ∧ dir_le (fs w) (fs w').

(** The path [d] resolves to the position [K], which holds a directory. *)
Definition dir_at w (d : Path) (K : list string) : Prop :=
  resolve w d = Ok K ∧ ∃ md, fs w !! K = Some (Dir md).

(** What every call of a generator does to the process: the environment
    stays, one instant passes, the call is logged. *)
Definition effect (ev : event) w w' : Prop :=
  same_env w w' ∧ ticks w' = S (ticks w) ∧ log w' = log w ++ [ev].

(** [w'] is [w] with some new directories, and nothing else changed. *)
Definition grows w w' : Prop :=
  same_env w w' ∧ ticks w' = ticks w ∧ log w' = log w ∧
  ∀ k, fs w' !! k = fs w !! k ∨
       (fs w !! k = None ∧ fs w' !! k = Some (Dir (creation_mode w (octal 7 7 7)))).

(** The position [k] holds a directory. *)
Definition has_dir w k : Prop := ∃ md, fs w !! k = Some (Dir md).

(** The file tree after a call on the entry at the position [k], for a
    process with the umask [um]: [put_dir] is [mkdir] with [exist_ok],
    [put_empty_file] is [touch], [put_text] is a write, [put_mode] is [chmod]. *)
Definition put_dir um k m : gmap (list string) node :=
  match m !! k with
  | Some _ => m
  | None => <[k := Dir (N.ldiff (octal 7 7 7) um)]> m
  end.

Definition put_empty_file um k m : gmap (list string) node :=
  match m !! k with
  | Some _ => m
  | None => <[k := File EmptyString (N.ldiff (octal 6 6 6) um)]> m
  end.

Definition put_text um k (c : string) m : gmap (list string) node :=
  <[k := File c match m !! k with
                | Some (File _ md) => md
                | _ => N.ldiff (octal 6 6 6) um
                end]> m.

Definition put_mode k (mode : N) m : gmap (list string) node :=
  match m !! k with
  | Some (File c _) => <[k := File c mode]> m
  | Some (Dir _) => <[k := Dir mode]> m
  | None => m
  end.

(** The path [d / x1 / ... / xn], for ordinary names. *)
Definition below d xs : Path := MkPath (path_anchor d) (parts d ++ xs).

(** The tree after [mkdir -p] of [x1/.../xn] in the directory at [K]: the
    missing directories are made from the top. *)
Fixpoint put_dirs um K xs m : gmap (list string) node :=
  match xs with
  | [] => m
  | x :: xs' => put_dirs um (K ++ [x]) xs' (put_dir um (K ++ [x]) m)
  end.


(** Directories all along [xs] below [K], [K] itself included. *)
Definition dirs_along m K xs : Prop :=
  ∀ pre, pre `prefix_of` xs → ∃ md, m !! (K ++ pre) = Some (Dir md).

End Vocabulary.

Section DataVocabulary.

Import Scaffold.

Implicit Types (m : gmap (list string) node) (w : world) (K : list string) (P : Path)
  (um : N).

(** The calls of one run on the project path [P], the clock showing [year]
    when the licence is written. *)
Definition data_trace P (year : N) : list event :=
  [ EMkdir (P </> "data");
    EMkdir (P </> "output");
    EMkdir (P </> "logs");
    EMkdir (P </> "bash");
    ETouch (P </> "config.py");
    EWrite (P </> "helpers.py") helpers_content;
    EWrite (P </> ".gitignore") gitignore_content;
    EClock year;
    EWrite (P </> "LICENSE") (license_content year);
    EWrite (P </> "README.md") readme_content;
    EWrite (P </> "run.bash") run_bash_content;
    EChmod (P </> "run.bash") (octal 7 5 5);
    EChmod (P </> "run.bash") (octal 7 5 5);
    EWrite (P </> ".gitignore") final_gitignore_content ].

(** The tree of a generated data project at the position [K] of [P]. *)
Record data_project_at w P K (year : N) : Prop := {
  dp_root : dir_at w P K;
  dp_dirs : ∀ x, x ∈ directories → has_dir w (K ++ [x]);
  dp_config : is_Some (fs w !! (K ++ ["config.py"]));
  dp_helpers : ∃ md, fs w !! (K ++ ["helpers.py"]) = Some (File helpers_content md);
  dp_gitignore : ∃ md, fs w !! (K ++ [".gitignore"]) = Some (File final_gitignore_content md);
  dp_license : ∃ md, fs w !! (K ++ ["LICENSE"]) = Some (File (license_content year) md);
  dp_readme : ∃ md, fs w !! (K ++ ["README.md"]) = Some (File readme_content md);
  dp_run_bash : fs w !! (K ++ ["run.bash"]) = Some (File run_bash_content (octal 7 5 5))
}.

(** The tree that the calls after the first [mkdir] leave, from the tree [m]
    they started on: [K] is the position of the project directory, [um] the
    umask, [year] the year on the clock. *)
Definition data_tree_rest um K (year : N) m : gmap (list string) node :=
  put_text um (K ++ [".gitignore"]) final_gitignore_content
    (put_mode (K ++ ["run.bash"]) (octal 7 5 5)
    (put_mode (K ++ ["run.bash"]) (octal 7 5 5)
    (put_text um (K ++ ["run.bash"]) run_bash_content
    (put_text um (K ++ ["README.md"]) readme_content
    (put_text um (K ++ ["LICENSE"]) (license_content year)
    (put_text um (K ++ [".gitignore"]) gitignore_content
    (put_text um (K ++ ["helpers.py"]) helpers_content
    (put_empty_file um (K ++ ["config.py"])
    (put_dir um (K ++ ["bash"])
    (put_dir um (K ++ ["logs"])
    (put_dir um (K ++ ["output"]) m))))))))))).

(** The tree that one run leaves in a project directory that exists. *)
Definition data_tree um K (year : N) m : gmap (list string) node :=
  data_tree_rest um K year (put_dir um (K ++ ["data"]) m).

(** Nothing is in the way of the generator in the directory at [K]: no
    regular file has the name of a planned directory and no directory has
    the name of a written file. *)
Definition data_ready m K : Prop :=
  (∀ x, x ∈ directories → ∀ c md, m !! (K ++ [x]) ≠ Some (File c md)) ∧
  (∀ x, x ∈ ["helpers.py"; ".gitignore"; "LICENSE"; "README.md"; "run.bash"] →
        ∀ md, m !! (K ++ [x]) ≠ Some (Dir md)).

End DataVocabulary.

Section PackageVocabulary.

Import ScaffoldPackage.

Implicit Types (m : gmap (list string) node) (w : world) (K Ks : list string) (P : Path)
  (um : N).

(** The calls of one run on the project path [P] for the package [name],
    the clock showing [year] when the licence is written. *)
Definition package_trace P (name : string) (year : N) : list event :=
  [ EMkdir (P </> "src" </> name);
    EMkdir (P </> "tests" </> "test_data");
    EMkdir (P </> "examples");
    EWrite (P </> "src" </> name </> "__init__.py") (init_content name);
    EWrite (P </> "src" </> name </> "base.py") base_content;
    EWrite (P </> "tests" </> "test_module1.py") test_content;
    EWrite (P </> "examples" </> "basic_usage.py") example_content;
    EWrite (P </> "pyproject.toml") (pyproject_content name);
    EWrite (P </> "README.md") (readme_content name);
    EClock year;
    EWrite (P </> "LICENSE") (license_content year);
    EWrite (P </> ".gitignore") gitignore_content ].

(** The tree of a generated package project: [K] is the position of the
    project path [P], [Ks] the position of the package directory. *)
Record package_project_at w P (name : string) K Ks (year : N) : Prop := {
  pp_root : dir_at w P K;
  pp_src : dir_at w (P </> "src" </> name) Ks;
  pp_tests : dir_at w (P </> "tests") (K ++ ["tests"]);
  pp_test_data : dir_at w (P </> "tests" </> "test_data") (K ++ ["tests"] ++ ["test_data"]);
  pp_examples : dir_at w (P </> "examples") (K ++ ["examples"]);
  pp_init : ∃ md, fs w !! (Ks ++ ["__init__.py"]) = Some (File (init_content name) md);
  pp_base : ∃ md, fs w !! (Ks ++ ["base.py"]) = Some (File base_content md);
  pp_test : ∃ md,
    fs w !! ((K ++ ["tests"]) ++ ["test_module1.py"]) = Some (File test_content md);
  pp_example : ∃ md,
    fs w !! ((K ++ ["examples"]) ++ ["basic_usage.py"]) = Some (File example_content md);
  pp_pyproject : ∃ md,
    fs w !! (K ++ ["pyproject.toml"]) = Some (File (pyproject_content name) md);
  pp_readme : ∃ md, fs w !! (K ++ ["README.md"]) = Some (File (readme_content name) md);
  pp_license : ∃ md, fs w !! (K ++ ["LICENSE"]) = Some (File (license_content year) md);
  pp_gitignore : ∃ md, fs w !! (K ++ [".gitignore"]) = Some (File gitignore_content md)
}.

(** The tree that the writes of one run leave, from the tree [m] that the
    [mkdir] calls left: [K] is the position of the project directory, [Ks]
    the position of the package directory [src/<name>]. *)
Definition package_files_tree um K Ks (name : string) (year : N) m
    : gmap (list string) node :=
  put_text um (K ++ [".gitignore"]) gitignore_content
    (put_text um (K ++ ["LICENSE"]) (license_content year)
    (put_text um (K ++ ["README.md"]) (readme_content name)
    (put_text um (K ++ ["pyproject.toml"]) (pyproject_content name)
    (put_text um ((K ++ ["examples"]) ++ ["basic_usage.py"]) example_content
    (put_text um ((K ++ ["tests"]) ++ ["test_module1.py"]) test_content
    (put_text um (Ks ++ ["base.py"]) base_content
    (put_text um (Ks ++ ["__init__.py"]) (init_content name) m))))))).

(** No directory has the position of a file that the generator writes. *)
Definition package_files_ready m K Ks : Prop :=
  ∀ k, k ∈ [Ks ++ ["__init__.py"]; Ks ++ ["base.py"];
            (K ++ ["tests"]) ++ ["test_module1.py"];
            (K ++ ["examples"]) ++ ["basic_usage.py"];
            K ++ ["pyproject.toml"]; K ++ ["README.md"]; K ++ ["LICENSE"];
            K ++ [".gitignore"]] →
       ∀ md, m !! k ≠ Some (Dir md).

(** The tree that one run with the empty package name leaves, from the tree
    [m] it started on: the package files land in [src] itself. *)
Definition package_tree um K (year : N) m : gmap (list string) node :=
  package_files_tree um K (K ++ ["src"]) EmptyString year
    (put_dir um (K ++ ["examples"])
    (put_dir um ((K ++ ["tests"]) ++ ["test_data"])
    (put_dir um (K ++ ["tests"])
    (put_dir um (K ++ ["src"]) m)))).

(** Nothing is in the way of that run in the directory at [K]. *)
Definition package_ready m K : Prop :=
  (∀ k, k ∈ [K ++ ["src"]; K ++ ["tests"]; (K ++ ["tests"]) ++ ["test_data"];
             K ++ ["examples"]] →
        ∀ c md, m !! k ≠ Some (File c md)) ∧
  package_files_ready m K (K ++ ["src"]).

End PackageVocabulary.

(** A world for the examples: [/tmp] exists, the umask is [0o022], the
    calendar shows 2026. *)
Definition tmp_world : world :=
  MkWorld {[ [] := Dir (octal 7 5 5); ["tmp"] := Dir (octal 7 7 7) ]}
          [] (octal 0 2 2) 0 (λ _, 2026) [].

(** The world a run leaves (the world it started in when it raised). *)
Definition world_after (run : M unit) (w : world) : world :=
  match run w with
  | Ok (_, w') => w'
  | Err _ => w
  end.

(** A project directory that already holds a configuration file and an
    older [helpers.py]. *)
Definition configured_world : world :=
  MkWorld (<[ ["tmp"; "demo"; "helpers.py"] := File "import sys" (octal 6 0 0) ]>
           (<[ ["tmp"; "demo"; "config.py"] := File "DEBUG = True" (octal 6 4 4) ]>
           (<[ ["tmp"; "demo"] := Dir (octal 7 5 5) ]> (fs tmp_world))))
          [] (octal 0 2 2) 0 (λ _, 2026) [].



(** * More vocabulary: what a run leaves alone *)

(** Two nodes of the same kind: both regular files or both directories. *)
Definition same_kind (n n' : node) : bool :=
  match n, n' with
  | File _ _, File _ _ => true
  | Dir _, Dir _ => true
  | _, _ => false
  end.

(** Every entry of [m] is still in [m'], a file as a file and a directory as
    a directory. *)
Definition keeps_entries (m m' : gmap (list string) node) : Prop :=
  ∀ k n, m !! k = Some n → ∃ n', m' !! k = Some n' ∧ same_kind n n' = true.

(** Outside the positions [ks], every entry of [m] is in [m'] as it was. *)
Definition unchanged_except (ks : list (list string)) (m m' : gmap (list string) node)
    : Prop :=
  ∀ k n, k ∉ ks → m !! k = Some n → m' !! k = Some n.

(** Every regular file of [m'] is at one of the positions [ks] or is in [m]
    as it is: no other regular file was made or changed. *)
Definition files_from (ks : list (list string)) (m m' : gmap (list string) node) : Prop :=
  ∀ k c md, m' !! k = Some (File c md) → k ∈ ks ∨ m !! k = Some (File c md).

(** Every directory of [m'] is at one of the positions [ks] or is a
    directory of [m]: no other directory was made. *)
Definition dirs_from (ks : list (list string)) (m m' : gmap (list string) node) : Prop :=
  ∀ k md, m' !! k = Some (Dir md) → k ∈ ks ∨ ∃ md', m !! k = Some (Dir md').

(** From [w] to [w'] no directory is lost, every entry keeps its kind, and
    only the entries at the positions [ks] can differ or be new regular
    files. *)
Definition touches (ks : list (list string)) (w w' : world) : Prop :=
  extends w w' ∧ keeps_entries (fs w) (fs w') ∧ unchanged_except ks (fs w) (fs w') ∧
  files_from ks (fs w) (fs w').

(** A tree as a file system has it: every entry but the root lies in a
    directory. *)
Definition in_directory (m : gmap (list string) node) (k : list string) : bool :=
  match k with
  | [] => true
  | _ => match m !! removelast k with Some (Dir _) => true | _ => false end
  end.

Definition well_formed (m : gmap (list string) node) : Prop :=
  map_Forall (λ k _, in_directory m k = true) m.

Global Instance well_formed_dec m : Decision (well_formed m).
Proof. unfold well_formed. apply _. Defined.

(** The lines of a text, and its exception lines: the lines of a
    [.gitignore] that start with [!]. *)
Definition lines (s : string) : list string := split_on "010" s.

Definition exceptions (s : string) : list string :=
  filter (λ l, String.prefix "!" l = true) (lines s).



(** The positions of the files that a data-project run writes, for the
    project directory at [K]. *)
Definition data_written (K : list string) : list (list string) :=
  [ K ++ ["helpers.py"]; K ++ [".gitignore"]; K ++ ["LICENSE"]; K ++ ["README.md"];
    K ++ ["run.bash"] ].

(** The same with [config.py], which a run creates when it is missing. *)
Definition data_touched (K : list string) : list (list string) :=
  (K ++ ["config.py"]) :: data_written K.

(** The positions of the files that a package-project run writes: [K] is
    the position of the project directory, [Ks] of the package directory. *)
Definition package_written (K Ks : list string) : list (list string) :=
  [ Ks ++ ["__init__.py"]; Ks ++ ["base.py"];
    (K ++ ["tests"]) ++ ["test_module1.py"];
    (K ++ ["examples"]) ++ ["basic_usage.py"];
    K ++ ["pyproject.toml"]; K ++ ["README.md"]; K ++ ["LICENSE"]; K ++ [".gitignore"] ].






(** * The command-line entry points *)

(** [Path.resolve()]: the absolute path of [p]. The model has no symbolic
    links, so the components are taken one after the other from the working
    directory (from the root for an anchored path), [..] going to the
    parent, and the result starts with one slash. *)
Definition Path_resolve (p : Path) (w : world) : Path :=
  MkPath Slash (foldl step (start w p) (parts p)).

(** The arguments as [parse_args] returns them: the positional argument
    [project_name] and the value of the option [--path], when it is given. *)
Record arguments := MkArguments {
  args_project_name : string;
  args_path_option : option string
}.

(** [args.path]: the option has the default ['.']. *)
Definition args_path (args : arguments) : string := default "." (args_path_option args).

(** [print(s)]: the text and a line feed are added to the standard output. *)
Definition print (s : string) (out : string) : string := out +:+ s +:+ nl.

(** [main] of [src/scaffold.py], from the parsed arguments: the world and
    the standard output after it, or the error of the generator. *)
Module ScaffoldMain.

Definition main (args : arguments) (w : world) (out : string) : result (world * string) :=
  match Scaffold.create_project (args_project_name args)
          (Path_resolve (parse_path (args_path args)) w) w with
  | Ok (_, w') =>
      Ok (w', print ("cd " +:+ args_project_name args)
                (print (nl +:+ "Project " +:+ args_project_name args
                           +:+ " created successfully!") out))
  | Err e => Err e
  end.

End ScaffoldMain.

(** [main] of [src/scaffold_package.py]. *)
Module ScaffoldPackageMain.

Definition main (args : arguments) (w : world) (out : string) : result (world * string) :=
  match ScaffoldPackage.create_project_structure (args_project_name args)
          (Path_resolve (parse_path (args_path args)) w) w with
  | Ok (_, w') =>
      Ok (w', print "2. pip install -e ."
                (print ("1. cd " +:+ args_project_name args)
                (print "Next steps:"
                (print (nl +:+ "Package project " +:+ args_project_name args
                           +:+ " created successfully!") out))))
  | Err e => Err e
  end.

End ScaffoldPackageMain.





(** * Text *)

Section Text.

Lemma append_assoc (a b c : string) : (a +:+ b) +:+ c = a +:+ b +:+ c.
Proof.
  induction a as [|ch a IH]; [done|].
  change (String ch ((a +:+ b) +:+ c) = String ch (a +:+ b +:+ c)). by rewrite IH.
Qed.

Lemma contains_app_r (t s sub : string) : contains s sub → contains (t +:+ s) sub.
Proof.
  intros (pre & post & ->). exists (t +:+ pre), post. by rewrite append_assoc.
Qed.

End Text.

(** * Pure paths *)

Section Paths.

Lemma joinpath_nil p : p <//> MkPath Relative [] = p.
Proof. destruct p as [a ps]. unfold joinpath; simpl. by rewrite app_nil_r. Qed.

Lemma truediv_empty p : p </> EmptyString = p.
Proof. apply joinpath_nil. Qed.

Lemma joinpath_assoc p q r : p <//> q <//> r = p <//> (q <//> r).
Proof.
  destruct p as [a ps], q as [b qs], r as [c rs].
  unfold joinpath; simpl. destruct c, b; simpl; try done.
  by rewrite app_assoc.
Qed.

Lemma truediv_simple p x :
  simple_name x → p </> x = MkPath (path_anchor p) (parts p ++ [x]).
Proof. intros [Hx _]. unfold truediv. by rewrite Hx. Qed.




End Paths.

(** * Path resolution *)

Section Resolution.

Implicit Types (m : gmap (list string) node) (w : world) (k cur K : list string) (d : Path).

Global Instance dir_le_preorder : PreOrder dir_le.
Proof.
  split.
  - intros m k md Hk. eauto.
  - intros m1 m2 m3 H12 H23 k md Hk.
    destruct (H12 _ _ Hk) as [md' Hk']. eauto.
Qed.

Lemma dir_le_insert_file m k c md :
  (∀ md', m !! k ≠ Some (Dir md')) → dir_le m (<[k := File c md]> m).
Proof.
  intros Hk k' md' Hk'. destruct (decide (k = k')) as [->|Hne].
  - by destruct (Hk md').
  - exists md'. by rewrite lookup_insert_ne.
Qed.

Lemma dir_le_insert_dir m k md : dir_le m (<[k := Dir md]> m).
Proof.
  intros k' md' Hk'. destruct (decide (k = k')) as [->|Hne].
  - exists md. by rewrite lookup_insert_eq.
  - exists md'. by rewrite lookup_insert_ne.
Qed.

Lemma walk_app m cur a b :
  walk m cur (a ++ b) =
  match walk m cur a with Ok k => walk m k b | Err e => Err e end.
Proof.
  revert cur. induction a as [|c a IH]; intros cur; simpl; [done|].
  destruct (m !! cur) as [[]|]; auto.
Qed.

Lemma walk_mono m m' cur comps k :
  dir_le m m' → walk m cur comps = Ok k → walk m' cur comps = Ok k.
Proof.
  intros Hle. revert cur. induction comps as [|c rest IH]; intros cur; simpl; [done|].
  destruct (m !! cur) as [[c0 md|md]|] eqn:Hcur; try done.
  destruct (Hle _ _ Hcur) as [md' ->]. apply IH.
Qed.

Global Instance extends_preorder : PreOrder extends.
Proof.
  split.
  - intros w. by repeat split.
  - intros w1 w2 w3 [(?&?&?) H12] [(?&?&?) H23]. repeat split; try congruence.
    by trans (fs w2).
Qed.

Lemma resolve_extends w w' p k :
  extends w w' → resolve w p = Ok k → resolve w' p = Ok k.
Proof.
  intros [(Hcwd&_&_) Hle]. unfold resolve, start. rewrite Hcwd.
  by apply walk_mono.
Qed.

Lemma dir_at_extends w w' d K : extends w w' → dir_at w d K → dir_at w' d K.
Proof.
  intros Hext [Hr [md Hd]]. split; [by eapply resolve_extends|].
  destruct Hext as [_ Hle]. by eapply Hle.
Qed.

Lemma is_dir_dir_at w d : is_dir w d = true ↔ ∃ K, dir_at w d K.
Proof.
  unfold is_dir, dir_at. split.
  - destruct (resolve w d) as [k|]; [|done].
    destruct (fs w !! k) as [[]|] eqn:Hk; try done. eauto.
  - intros (K & -> & md & ->). done.
Qed.

Lemma resolve_child w d K x :
  dir_at w d K → simple_name x → resolve w (d </> x) = Ok (K ++ [x]).
Proof.
  intros [Hr [md Hd]] Hx. rewrite truediv_simple by done.
  unfold resolve, start in *; simpl. rewrite walk_app, Hr. simpl. rewrite Hd.
  unfold step. destruct Hx as [_ Hx]. by rewrite decide_False.
Qed.

Lemma dir_at_child_inv w d x K' :
  simple_name x → dir_at w (d </> x) K' →
  ∃ K, dir_at w d K ∧ K' = K ++ [x].
Proof.
  intros Hx [Hr Hd]. rewrite truediv_simple in Hr by done.
  unfold resolve, start in Hr; simpl in Hr. rewrite walk_app in Hr.
  destruct (walk (fs w) _ (parts d)) as [K|] eqn:HK; [|done]. simpl in Hr.
  destruct (fs w !! K) as [[|md]|] eqn:HKd; try done.
  unfold step in Hr. destruct Hx as [_ Hx]. rewrite decide_False in Hr by done.
  exists K. split; [|congruence]. split; eauto.
Qed.

Lemma child_ne K x y : x ≠ y → K ++ [x] ≠ K ++ [y].
Proof. intros Hne Heq. apply app_inv_head in Heq. congruence. Qed.

Lemma child_ne_last K K' x y : x ≠ y → K ++ [x] ≠ K' ++ [y].
Proof. intros Hne Heq. apply app_inj_tail in Heq as [_ ?]. done. Qed.

End Resolution.

(** * The calls *)

Section Calls.

Implicit Types (m : gmap (list string) node) (w : world) (k K : list string)
  (d p : Path) (x : string).

Lemma grows_refl w : grows w w.
Proof. repeat split; auto. Qed.

Lemma grows_trans w1 w2 w3 : grows w1 w2 → grows w2 w3 → grows w1 w3.
Proof.
  intros ((?&Hu&?)&?&?&H12) ((?&?&?)&?&?&H23).
  repeat split; try congruence. intros k.
  destruct (H12 k) as [E12|[N12 D12]], (H23 k) as [E23|[N23 D23]].
  - left. congruence.
  - right. split; [congruence|]. rewrite D23. unfold creation_mode. by rewrite Hu.
  - right. split; [done|]. congruence.
  - congruence.
Qed.

Lemma grows_extends w w' : grows w w' → extends w w'.
Proof.
  intros (Henv&_&_&Hk). split; [done|]. intros k md Hd.
  destruct (Hk k) as [->|[? _]]; [eauto|congruence].
Qed.

Lemma os_mkdir_inv p w w' :
  os_mkdir p w = Ok w' →
  ∃ k, resolve w p = Ok k ∧ fs w !! k = None ∧
       w' = set_fs w (<[k := Dir (creation_mode w (octal 7 7 7))]> (fs w)).
Proof.
  unfold os_mkdir. destruct (resolve w p) as [k|]; [|done].
  destruct (fs w !! k) eqn:Hk; [done|]. intros [= <-]. eauto.
Qed.

Lemma os_mkdir_spec p w w' :
  os_mkdir p w = Ok w' → grows w w' ∧ is_dir w' p = true.
Proof.
  intros (k & Hr & Hk & ->)%os_mkdir_inv.
  assert (grows w (set_fs w (<[k:=Dir (creation_mode w (octal 7 7 7))]> (fs w)))) as Hg.
  { repeat split; simpl. intros k'. destruct (decide (k = k')) as [<-|Hne].
    - right. by rewrite lookup_insert_eq.
    - left. by rewrite lookup_insert_ne. }
  split; [done|]. apply is_dir_dir_at. exists k. split.
  - eapply resolve_extends; [by apply grows_extends|done].
  - simpl. rewrite lookup_insert_eq. eauto.
Qed.

Lemma mkdir_exist_ok_spec p w w' :
  mkdir_exist_ok p w = Ok w' → grows w w' ∧ is_dir w' p = true.
Proof.
  unfold mkdir_exist_ok. destruct (os_mkdir p w) as [w1|e] eqn:Hos.
  - intros [= <-]. by apply os_mkdir_spec.
  - destruct e; try done; destruct (is_dir w p) eqn:Hd; try done;
      intros [= <-]; split; auto using grows_refl.
Qed.

Lemma mkdir_parents_spec a rparts w w' :
  mkdir_parents a rparts w = Ok w' →
  grows w w' ∧ is_dir w' (MkPath a (rev rparts)) = true.
Proof.
  revert w w'. induction rparts as [|x up IH]; intros w w'.
  - simpl. destruct (os_mkdir _ w) as [w1|e] eqn:Hos.
    + intros [= <-]. by apply os_mkdir_spec.
    + destruct e; try done; destruct (is_dir w _) eqn:Hd; try done;
        intros [= <-]; split; auto using grows_refl.
  - cbn [mkdir_parents]. destruct (os_mkdir _ w) as [w1|e] eqn:Hos.
    + intros [= <-]. by apply os_mkdir_spec.
    + destruct e.
      * destruct (mkdir_parents a up w) as [w1|] eqn:Hup; [|done].
        intros [Hg Hd]%mkdir_exist_ok_spec. split; [|done].
        eapply grows_trans; [|done]. by apply IH.
      * destruct (is_dir w _) eqn:Hd; [|done]. intros [= <-]. auto using grows_refl.
      * destruct (is_dir w _) eqn:Hd; [|done]. intros [= <-]. auto using grows_refl.
      * destruct (is_dir w _) eqn:Hd; [|done]. intros [= <-]. auto using grows_refl.
Qed.

Lemma effect_tick ev w : effect ev w (tick ev w).
Proof. by repeat split. Qed.

Lemma extends_tick ev w : extends w (tick ev w).
Proof. by repeat split. Qed.

(** [Path.mkdir(parents=True, exist_ok=True)], when it returns: the path is
    a directory, and the tree only gained directories. *)
Lemma Path_mkdir_inv p w w' u :
  Path_mkdir p w = Ok (u, w') →
  effect (EMkdir p) w w' ∧ extends w w' ∧ is_dir w' p = true ∧
  ∀ k, fs w' !! k = fs w !! k ∨
       (fs w !! k = None ∧ fs w' !! k = Some (Dir (creation_mode w (octal 7 7 7)))).
Proof.
  unfold Path_mkdir.
  destruct (mkdir_parents _ _ w) as [w1|] eqn:Hmk; [|done]. intros [= _ <-].
  apply mkdir_parents_spec in Hmk as [Hg Hd]. rewrite rev_involutive in Hd.
  assert (MkPath (path_anchor p) (parts p) = p) as Hp by by destruct p.
  rewrite Hp in Hd. pose proof (grows_extends _ _ Hg) as Hext.
  destruct Hg as (Henv&Ht&Hl&Hk).
  split; [|split; [|split]].
  - destruct Henv as (?&?&?). repeat split; simpl; congruence.
  - trans w1; [done|apply extends_tick].
  - apply is_dir_dir_at in Hd as [K HK]. apply is_dir_dir_at. exists K.
    eapply dir_at_extends; [apply extends_tick|done].
  - done.
Qed.

(** *** Calls on an entry [x] of a directory [d] that resolves to [K] *)

Lemma Path_touch_child d K x w :
  dir_at w d K → simple_name x →
  Path_touch (d </> x) w =
  match fs w !! (K ++ [x]) with
  | Some _ => Ok (tt, tick (ETouch (d </> x)) w)
  | None =>
      Ok (tt, tick (ETouch (d </> x))
                (set_fs w (<[K ++ [x] := File EmptyString (creation_mode w (octal 6 6 6))]> (fs w))))
  end.
Proof. intros Hd Hx. unfold Path_touch. by rewrite (resolve_child _ _ K). Qed.

Lemma write_text_child d K x c w :
  dir_at w d K → simple_name x →
  write_text (d </> x) c w =
  match fs w !! (K ++ [x]) with
  | Some (Dir _) => Err EISDIR
  | Some (File _ md) =>
      Ok (tt, tick (EWrite (d </> x) c) (set_fs w (<[K ++ [x] := File c md]> (fs w))))
  | None =>
      Ok (tt, tick (EWrite (d </> x) c)
                (set_fs w (<[K ++ [x] := File c (creation_mode w (octal 6 6 6))]> (fs w))))
  end.
Proof. intros Hd Hx. unfold write_text. by rewrite (resolve_child _ _ K). Qed.

Lemma os_chmod_child d K x mode w :
  dir_at w d K → simple_name x →
  os_chmod (d </> x) mode w =
  match fs w !! (K ++ [x]) with
  | Some (File c _) =>
      Ok (tt, tick (EChmod (d </> x) mode) (set_fs w (<[K ++ [x] := File c mode]> (fs w))))
  | Some (Dir _) =>
      Ok (tt, tick (EChmod (d </> x) mode) (set_fs w (<[K ++ [x] := Dir mode]> (fs w))))
  | None => Err ENOENT
  end.
Proof. intros Hd Hx. unfold os_chmod. by rewrite (resolve_child _ _ K). Qed.

Lemma Path_mkdir_child d K x w :
  dir_at w d K → simple_name x →
  Path_mkdir (d </> x) w =
  match fs w !! (K ++ [x]) with
  | Some (Dir _) => Ok (tt, tick (EMkdir (d </> x)) w)
  | Some (File _ _) => Err EEXIST
  | None =>
      Ok (tt, tick (EMkdir (d </> x))
                (set_fs w (<[K ++ [x] := Dir (creation_mode w (octal 7 7 7))]> (fs w))))
  end.
Proof.
  intros Hd Hx. unfold Path_mkdir.
  pose proof (resolve_child _ _ _ _ Hd Hx) as Hr.
  rewrite (truediv_simple d x Hx) in *. simpl.
  rewrite rev_app_distr. simpl. rewrite rev_involutive.
  unfold os_mkdir, is_dir. rewrite Hr.
  by destruct (fs w !! (K ++ [x])) as [[]|].
Qed.

End Calls.

(** * Running a generator *)

Section Runs.

Implicit Types (w : world) (k K : list string) (d p : Path) (x : string).

Lemma bind_inv {A B} (m : M A) (f : A → M B) w r :
  (m ≫= f) w = Ok r → ∃ a w1, m w = Ok (a, w1) ∧ f a w1 = Ok r.
Proof. unfold mbind, M_bind. destruct (m w) as [[a w1]|]; [eauto|done]. Qed.

Lemma bind_ok {A B} (m : M A) (f : A → M B) w a w1 :
  m w = Ok (a, w1) → (m ≫= f) w = f a w1.
Proof. unfold mbind, M_bind. by intros ->. Qed.

Lemma ret_inv {A} (a b : A) w w' : (mret a : M A) w = Ok (b, w') → a = b ∧ w = w'.
Proof. by intros [= -> ->]. Qed.

Lemma has_dir_extends w w' k : extends w w' → has_dir w k → has_dir w' k.
Proof. intros [_ Hle] [md Hk]. by eapply Hle. Qed.

Lemma dir_at_inj w d K K' : dir_at w d K → dir_at w d K' → K = K'.
Proof. intros [H1 _] [H2 _]. congruence. Qed.

Lemma is_dir_child w d K x :
  dir_at w d K → simple_name x → is_dir w (d </> x) = true → has_dir w (K ++ [x]).
Proof.
  intros Hd Hx. unfold is_dir, has_dir. rewrite (resolve_child _ _ K) by done.
  destruct (fs w !! (K ++ [x])) as [[]|]; try done. eauto.
Qed.

Lemma dir_at_child w d K x :
  dir_at w d K → simple_name x → has_dir w (K ++ [x]) → dir_at w (d </> x) (K ++ [x]).
Proof. intros Hd Hx Hk. split; [by apply resolve_child|done]. Qed.

Lemma is_dir_child_inv w d x :
  simple_name x → is_dir w (d </> x) = true →
  ∃ K, dir_at w d K ∧ has_dir w (K ++ [x]).
Proof.
  intros Hx [K' HK']%is_dir_dir_at.
  destruct (dir_at_child_inv _ _ _ _ Hx HK') as (K & HK & ->).
  exists K. split; [done|]. by destruct HK'.
Qed.

Lemma Path_touch_inv d K x w w' u :
  dir_at w d K → simple_name x → Path_touch (d </> x) w = Ok (u, w') →
  effect (ETouch (d </> x)) w w' ∧ extends w w' ∧
  ((∃ n, fs w !! (K ++ [x]) = Some n ∧ fs w' = fs w) ∨
   (fs w !! (K ++ [x]) = None ∧
    fs w' = <[K ++ [x] := File EmptyString (creation_mode w (octal 6 6 6))]> (fs w))).
Proof.
  intros Hd Hx. rewrite (Path_touch_child _ K) by done.
  destruct (fs w !! (K ++ [x])) as [n|] eqn:Hk; intros [= _ <-].
  - split; [apply effect_tick|]. split; [apply extends_tick|]. left. eauto.
  - split; [by repeat split|]. split; [|by right].
    split; [by repeat split|]. simpl. apply dir_le_insert_file. congruence.
Qed.

Lemma write_text_inv d K x c w w' u :
  dir_at w d K → simple_name x → write_text (d </> x) c w = Ok (u, w') →
  effect (EWrite (d </> x) c) w w' ∧ extends w w' ∧
  ∃ md, fs w' = <[K ++ [x] := File c md]> (fs w) ∧
        ((fs w !! (K ++ [x]) = None ∧ md = creation_mode w (octal 6 6 6)) ∨
         (∃ c0, fs w !! (K ++ [x]) = Some (File c0 md))).
Proof.
  intros Hd Hx. rewrite (write_text_child _ K) by done.
  destruct (fs w !! (K ++ [x])) as [[c0 md0|md0]|] eqn:Hk; intros [= _ <-].
  - split; [by repeat split|]. split.
    + split; [by repeat split|]. simpl. apply dir_le_insert_file. congruence.
    + exists md0. split; [done|]. right. eauto.
  - split; [by repeat split|]. split.
    + split; [by repeat split|]. simpl. apply dir_le_insert_file. congruence.
    + eexists. split; [done|]. by left.
Qed.

Lemma os_chmod_inv d K x mode w w' u :
  dir_at w d K → simple_name x → os_chmod (d </> x) mode w = Ok (u, w') →
  effect (EChmod (d </> x) mode) w w' ∧ extends w w' ∧
  ((∃ c md0, fs w !! (K ++ [x]) = Some (File c md0) ∧
             fs w' = <[K ++ [x] := File c mode]> (fs w)) ∨
   (∃ md0, fs w !! (K ++ [x]) = Some (Dir md0) ∧
           fs w' = <[K ++ [x] := Dir mode]> (fs w))).
Proof.
  intros Hd Hx. rewrite (os_chmod_child _ K) by done.
  destruct (fs w !! (K ++ [x])) as [[c0 md0|md0]|] eqn:Hk; intros [= _ <-].
  - split; [by repeat split|]. split.
    + split; [by repeat split|]. simpl. apply dir_le_insert_file. congruence.
    + left. eauto.
  - split; [by repeat split|]. split.
    + split; [by repeat split|]. simpl. apply dir_le_insert_dir.
    + right. eauto.
Qed.

Lemma os_chmod_file_inv d K x c md0 mode w w' u :
  dir_at w d K → simple_name x → fs w !! (K ++ [x]) = Some (File c md0) →
  os_chmod (d </> x) mode w = Ok (u, w') →
  effect (EChmod (d </> x) mode) w w' ∧ extends w w' ∧
  fs w' = <[K ++ [x] := File c mode]> (fs w).
Proof.
  intros Hd Hx Hk Hc.
  destruct (os_chmod_inv _ _ _ _ _ _ _ Hd Hx Hc) as (E & X & [(c' & md' & Hk' & F)|(md' & Hk' & _)]);
    [|congruence].
  repeat split; try apply E; try apply X. congruence.
Qed.

Lemma now_year_inv w w' y :
  now_year w = Ok (y, w') →
  y = calendar w (ticks w) ∧ effect (EClock y) w w' ∧ extends w w' ∧ fs w' = fs w.
Proof.
  unfold now_year. intros [= <- <-]. split; [done|].
  split; [apply effect_tick|]. split; [apply extends_tick|done].
Qed.

End Runs.

(** Takes the first call off a run that returned: [w1] is the world after
    the call and [H1] says that the call returned. *)
Tactic Notation "run_inv" hyp(H) "as" ident(w1) ident(H1) :=
  let a := fresh "u" in
  apply bind_inv in H as (a & w1 & H1 & H).

(** The same, naming also the value [a] that the call returned. *)
Tactic Notation "run_inv_val" hyp(H) "as" ident(a) ident(w1) ident(H1) :=
  apply bind_inv in H as (a & w1 & H1 & H).

(** Every call of a run lost no directory: the first world extends to the last. *)
Ltac chain_extends := first [reflexivity | etrans; [eassumption|]; chain_extends].

(** Settles a lookup through a chain of updates of entries of directories. *)
Ltac lookup_child :=
  repeat first
    [ rewrite lookup_insert_eq
    | rewrite lookup_insert_ne by (apply child_ne_last; discriminate) ].

Ltac solve_simple := split; [reflexivity | discriminate].

(** * The data-project generator *)

Section DataProject.

Import Scaffold.

Implicit Types (w : world) (K : list string) (P : Path).

Lemma create_project_inv project_name base_path w w' u :
  create_project project_name base_path w = Ok (u, w') →
  let P := base_path </> project_name in
  let year := calendar w (7 + ticks w)%nat in
  ∃ K, data_project_at w' P K year ∧
       log w' = log w ++ data_trace P year ∧
       same_env w w' ∧ ticks w' = (14 + ticks w)%nat ∧
       extends w w' ∧
       (∀ n, fs w !! (K ++ ["config.py"]) = Some n →
             fs w' !! (K ++ ["config.py"]) = Some n).
Proof.
  intros Hrun P year. unfold create_project in Hrun. fold P in Hrun.
  unfold directories, for_each in Hrun.
  run_inv Hrun as wd Hdirs.
  run_inv Hdirs as w1 M1. run_inv Hdirs as w2 M2.
  run_inv Hdirs as w3 M3. run_inv Hdirs as w4 M4.
  apply ret_inv in Hdirs as [_ <-].
  run_inv Hrun as w5 T5. run_inv Hrun as w6 H6. run_inv Hrun as w7 H7.
  run_inv Hrun as w9 H9. run_inv Hrun as w10 H10. run_inv Hrun as w12 H12.
  run_inv Hrun as w13 H13.
  unfold create_license in H9. run_inv_val H9 as yr w8 C8.
  unfold create_run_bash in H12. run_inv H12 as w11 H11.
  unfold create_helpers in H6. unfold create_gitignore in H7.
  unfold create_readme in H10.
  (* the four directories *)
  apply Path_mkdir_inv in M1 as (E1 & X1 & D1 & F1).
  apply Path_mkdir_inv in M2 as (E2 & X2 & D2 & F2).
  apply Path_mkdir_inv in M3 as (E3 & X3 & D3 & F3).
  apply Path_mkdir_inv in M4 as (E4 & X4 & D4 & F4).
  apply is_dir_child_inv in D1 as (K & HP1 & HD1); [|solve_simple].
  pose proof (dir_at_extends _ _ _ _ X2 HP1) as HP2.
  pose proof (dir_at_extends _ _ _ _ X3 HP2) as HP3.
  pose proof (dir_at_extends _ _ _ _ X4 HP3) as HP4.
  apply (is_dir_child _ _ K) in D2; [|done|solve_simple].
  apply (is_dir_child _ _ K) in D3; [|done|solve_simple].
  apply (is_dir_child _ _ K) in D4; [|done|solve_simple].
  (* the files *)
  apply (Path_touch_inv _ K) in T5 as (E5 & X5 & O5); [|done|solve_simple].
  pose proof (dir_at_extends _ _ _ _ X5 HP4) as HP5.
  apply (write_text_inv _ K) in H6 as (E6 & X6 & md6 & F6 & O6); [|done|solve_simple].
  pose proof (dir_at_extends _ _ _ _ X6 HP5) as HP6.
  apply (write_text_inv _ K) in H7 as (E7 & X7 & md7 & F7 & O7); [|done|solve_simple].
  pose proof (dir_at_extends _ _ _ _ X7 HP6) as HP7.
  apply now_year_inv in C8 as (Hy & E8 & X8 & F8).
  pose proof (dir_at_extends _ _ _ _ X8 HP7) as HP8.
  apply (write_text_inv _ K) in H9 as (E9 & X9 & md9 & F9 & O9); [|done|solve_simple].
  pose proof (dir_at_extends _ _ _ _ X9 HP8) as HP9.
  apply (write_text_inv _ K) in H10 as (E10 & X10 & md10 & F10 & O10); [|done|solve_simple].
  pose proof (dir_at_extends _ _ _ _ X10 HP9) as HP10.
  apply (write_text_inv _ K) in H11 as (E11 & X11 & md11 & F11 & O11); [|done|solve_simple].
  pose proof (dir_at_extends _ _ _ _ X11 HP10) as HP11.
  eapply (os_chmod_file_inv _ K) in H12 as (E12 & X12 & F12);
    [|done|solve_simple|by rewrite F11, lookup_insert_eq].
  pose proof (dir_at_extends _ _ _ _ X12 HP11) as HP12.
  eapply (os_chmod_file_inv _ K) in H13 as (E13 & X13 & F13);
    [|done|solve_simple|by rewrite F12, lookup_insert_eq].
  pose proof (dir_at_extends _ _ _ _ X13 HP12) as HP13.
  apply (write_text_inv _ K) in Hrun as (E14 & X14 & md14 & F14 & O14); [|done|solve_simple].
  pose proof (dir_at_extends _ _ _ _ X14 HP13) as HP14.
  assert (fs w' =
    <[K ++ [".gitignore"] := File final_gitignore_content md14]>
    (<[K ++ ["run.bash"] := File run_bash_content (octal 7 5 5)]>
    (<[K ++ ["run.bash"] := File run_bash_content (octal 7 5 5)]>
    (<[K ++ ["run.bash"] := File run_bash_content md11]>
    (<[K ++ ["README.md"] := File readme_content md10]>
    (<[K ++ ["LICENSE"] := File (license_content yr) md9]>
    (<[K ++ [".gitignore"] := File gitignore_content md7]>
    (<[K ++ ["helpers.py"] := File helpers_content md6]> (fs w5))))))))) as Ffs.
  { by rewrite F14, F13, F12, F11, F10, F9, F8, F7, F6. }
  destruct E1 as (_ & T1 & L1), E2 as (_ & T2 & L2), E3 as (_ & T3 & L3),
    E4 as (_ & T4 & L4), E5 as (_ & T5 & L5), E6 as (_ & T6 & L6),
    E7 as (_ & T7 & L7), E8 as (_ & T8 & L8), E9 as (_ & T9 & L9),
    E10 as (_ & T10 & L10), E11 as (_ & T11 & L11), E12 as (_ & T12 & L12),
    E13 as (_ & T13 & L13), E14 as (_ & T14 & L14).
  assert (yr = year) as ->.
  { assert (extends w w7) as [(_ & _ & Hcal) _] by chain_extends.
    by rewrite Hy, Hcal, T7, T6, T5, T4, T3, T2, T1. }
  assert (extends w w') as Xall by chain_extends.
  exists K. split; [|split; [|split; [|split; [|split]]]].
  - split.
    + done.
    + intros x Hx. unfold directories in Hx.
      repeat (apply elem_of_cons in Hx as [->|Hx]); [| | | |by apply elem_of_nil in Hx].
      * eapply has_dir_extends; [|exact HD1]. chain_extends.
      * eapply has_dir_extends; [|exact D2]. chain_extends.
      * eapply has_dir_extends; [|exact D3]. chain_extends.
      * eapply has_dir_extends; [|exact D4]. chain_extends.
    + rewrite Ffs. lookup_child.
      destruct O5 as [(n & Hn & F5)|(Hn & F5)]; rewrite F5.
      * eauto.
      * rewrite lookup_insert_eq. eauto.
    + rewrite Ffs. lookup_child. eauto.
    + rewrite Ffs. lookup_child. eauto.
    + rewrite Ffs. lookup_child. eauto.
    + rewrite Ffs. lookup_child. eauto.
    + rewrite Ffs. by lookup_child.
  - rewrite L14, L13, L12, L11, L10, L9, L8, L7, L6, L5, L4, L3, L2, L1.
    by rewrite <- !app_assoc.
  - apply Xall.
  - by rewrite T14, T13, T12, T11, T10, T9, T8, T7, T6, T5, T4, T3, T2, T1.
  - done.
  - intros n Hn.
    assert (fs w1 !! (K ++ ["config.py"]) = Some n) as C1
      by (destruct (F1 (K ++ ["config.py"])) as [->|[? _]]; congruence).
    assert (fs w2 !! (K ++ ["config.py"]) = Some n) as C2
      by (destruct (F2 (K ++ ["config.py"])) as [->|[? _]]; congruence).
    assert (fs w3 !! (K ++ ["config.py"]) = Some n) as C3
      by (destruct (F3 (K ++ ["config.py"])) as [->|[? _]]; congruence).
    assert (fs w4 !! (K ++ ["config.py"]) = Some n) as C4
      by (destruct (F4 (K ++ ["config.py"])) as [->|[? _]]; congruence).
    rewrite Ffs. lookup_child.
    destruct O5 as [(n' & Hn' & F5)|(Hn' & F5)]; [|congruence]. by rewrite F5.
Qed.

End DataProject.

(** * The package-project generator *)

Section PackageProject.

Import ScaffoldPackage.

Implicit Types (w : world) (K : list string) (P : Path).

(** The planned directories, joined to the project path, are the paths
    that the later calls spell component by component. *)
Lemma planned_src P name :
  P <//> (parse_path "src" </> name) = P </> "src" </> name.
Proof. unfold truediv. by rewrite joinpath_assoc. Qed.

Lemma planned_tests P :
  P <//> (parse_path "tests" </> "test_data") = P </> "tests" </> "test_data".
Proof. unfold truediv. by rewrite joinpath_assoc. Qed.

Lemma planned_examples P : P <//> parse_path "examples" = P </> "examples".
Proof. done. Qed.

Lemma create_project_structure_inv project_name base_path w w' u :
  create_project_structure project_name base_path w = Ok (u, w') →
  let P := base_path </> project_name in
  let year := calendar w (9 + ticks w)%nat in
  ∃ K Ks, package_project_at w' P project_name K Ks year ∧
          log w' = log w ++ package_trace P project_name year ∧
          ticks w' = (12 + ticks w)%nat ∧
          extends w w'.
Proof.
  intros Hrun P year. unfold create_project_structure in Hrun. fold P in Hrun.
  unfold directories, for_each in Hrun.
  rewrite planned_src, planned_tests, planned_examples in Hrun.
  run_inv Hrun as wd Hdirs.
  run_inv Hdirs as w1 M1. run_inv Hdirs as w2 M2. run_inv Hdirs as w3 M3.
  apply ret_inv in Hdirs as [_ <-].
  run_inv Hrun as w4 H4. run_inv Hrun as w5 H5. run_inv Hrun as w6 H6.
  run_inv Hrun as w7 H7. run_inv Hrun as w8 H8. run_inv Hrun as w9 H9.
  run_inv Hrun as w11 H11.
  unfold create_license in H11. run_inv_val H11 as yr w10 C10.
  unfold create_init_file in H4. unfold create_base_file in H5.
  unfold create_test_file in H6. unfold create_example_file in H7.
  unfold create_pyproject_toml in H8. unfold create_readme in H9.
  unfold create_gitignore in Hrun.
  (* the directories *)
  apply Path_mkdir_inv in M1 as (E1 & X1 & D1 & _).
  apply Path_mkdir_inv in M2 as (E2 & X2 & D2 & _).
  apply Path_mkdir_inv in M3 as (E3 & X3 & D3 & _).
  apply is_dir_dir_at in D1 as [Ks HS1].
  apply is_dir_dir_at in D2 as [Ktd HTD2].
  apply is_dir_child_inv in D3 as (K & HP3 & HE3); [|solve_simple].
  pose proof (dir_at_extends _ _ _ _ X3 HTD2) as HTD3.
  destruct (dir_at_child_inv w3 (P </> "tests") "test_data" _ ltac:(solve_simple) HTD3)
    as (Kt & HT3 & ->).
  destruct (dir_at_child_inv w3 P "tests" _ ltac:(solve_simple) HT3) as (K' & HP3' & ->).
  rewrite <- (dir_at_inj _ _ _ _ HP3 HP3') in *. clear HP3'.
  pose proof (dir_at_child _ _ _ "examples" HP3 ltac:(solve_simple) HE3) as HEx3.
  assert (dir_at w3 (P </> "src" </> project_name) Ks) as HS3.
  { eapply dir_at_extends; [|exact HS1]. chain_extends. }
  (* the files *)
  apply (write_text_inv _ Ks) in H4 as (E4 & X4 & md4 & F4 & _); [|done|solve_simple].
  assert (dir_at w4 (P </> "src" </> project_name) Ks) as HS4
    by (by eapply dir_at_extends).
  apply (write_text_inv _ Ks) in H5 as (E5 & X5 & md5 & F5 & _); [|done|solve_simple].
  assert (dir_at w5 (P </> "tests") (K ++ ["tests"])) as HT5.
  { eapply dir_at_extends; [|exact HT3]. chain_extends. }
  apply (write_text_inv _ (K ++ ["tests"])) in H6 as (E6 & X6 & md6 & F6 & _);
    [|done|solve_simple].
  assert (dir_at w6 (P </> "examples") (K ++ ["examples"])) as HEx6.
  { eapply dir_at_extends; [|exact HEx3]. chain_extends. }
  apply (write_text_inv _ (K ++ ["examples"])) in H7 as (E7 & X7 & md7 & F7 & _);
    [|done|solve_simple].
  assert (dir_at w7 P K) as HP7.
  { eapply dir_at_extends; [|exact HP3]. chain_extends. }
  apply (write_text_inv _ K) in H8 as (E8 & X8 & md8 & F8 & _); [|done|solve_simple].
  pose proof (dir_at_extends _ _ _ _ X8 HP7) as HP8.
  apply (write_text_inv _ K) in H9 as (E9 & X9 & md9 & F9 & _); [|done|solve_simple].
  pose proof (dir_at_extends _ _ _ _ X9 HP8) as HP9.
  apply now_year_inv in C10 as (Hy & E10 & X10 & F10).
  pose proof (dir_at_extends _ _ _ _ X10 HP9) as HP10.
  apply (write_text_inv _ K) in H11 as (E11 & X11 & md11 & F11 & _); [|done|solve_simple].
  pose proof (dir_at_extends _ _ _ _ X11 HP10) as HP11.
  apply (write_text_inv _ K) in Hrun as (E12 & X12 & md12 & F12 & _); [|done|solve_simple].
  assert (fs w' =
    <[K ++ [".gitignore"] := File gitignore_content md12]>
    (<[K ++ ["LICENSE"] := File (license_content yr) md11]>
    (<[K ++ ["README.md"] := File (readme_content project_name) md9]>
    (<[K ++ ["pyproject.toml"] := File (pyproject_content project_name) md8]>
    (<[(K ++ ["examples"]) ++ ["basic_usage.py"] := File example_content md7]>
    (<[(K ++ ["tests"]) ++ ["test_module1.py"] := File test_content md6]>
    (<[Ks ++ ["base.py"] := File base_content md5]>
    (<[Ks ++ ["__init__.py"] := File (init_content project_name) md4]> (fs w3))))))))) as Ffs.
  { by rewrite F12, F11, F10, F9, F8, F7, F6, F5, F4. }
  destruct E1 as (_ & T1 & L1), E2 as (_ & T2 & L2), E3 as (_ & T3 & L3),
    E4 as (_ & T4 & L4), E5 as (_ & T5 & L5), E6 as (_ & T6 & L6),
    E7 as (_ & T7 & L7), E8 as (_ & T8 & L8), E9 as (_ & T9 & L9),
    E10 as (_ & T10 & L10), E11 as (_ & T11 & L11), E12 as (_ & T12 & L12).
  assert (yr = year) as ->.
  { assert (extends w w9) as [(_ & _ & Hcal) _] by chain_extends.
    by rewrite Hy, Hcal, T9, T8, T7, T6, T5, T4, T3, T2, T1. }
  assert (extends w3 w') as X3' by chain_extends.
  exists K, Ks. split; [|split; [|split]].
  - split.
    + by eapply dir_at_extends.
    + by eapply dir_at_extends.
    + by eapply dir_at_extends.
    + rewrite app_assoc. by eapply dir_at_extends.
    + by eapply dir_at_extends.
    + rewrite Ffs. lookup_child. eauto.
    + rewrite Ffs. lookup_child. eauto.
    + rewrite Ffs. lookup_child. eauto.
    + rewrite Ffs. lookup_child. eauto.
    + rewrite Ffs. lookup_child. eauto.
    + rewrite Ffs. lookup_child. eauto.
    + rewrite Ffs. lookup_child. eauto.
    + rewrite Ffs. lookup_child. eauto.
  - rewrite L12, L11, L10, L9, L8, L7, L6, L5, L4, L3, L2, L1.
    by rewrite <- !app_assoc.
  - by rewrite T12, T11, T10, T9, T8, T7, T6, T5, T4, T3, T2, T1.
  - chain_extends.
Qed.

End PackageProject.

(** * What the calls do to an entry of an existing directory *)

Section Entries.

Implicit Types (m : gmap (list string) node) (w : world) (k K : list string)
  (d : Path) (x : string) (um : N).

Lemma lookup_put_dir_ne um k k' m : k ≠ k' → put_dir um k m !! k' = m !! k'.
Proof. intros Hne. unfold put_dir. destruct (m !! k); [done|]. by rewrite lookup_insert_ne. Qed.

Lemma lookup_put_empty_file_ne um k k' m : k ≠ k' → put_empty_file um k m !! k' = m !! k'.
Proof.
  intros Hne. unfold put_empty_file. destruct (m !! k); [done|].
  by rewrite lookup_insert_ne.
Qed.

Lemma lookup_put_text_ne um k k' c m : k ≠ k' → put_text um k c m !! k' = m !! k'.
Proof. intros Hne. unfold put_text. by rewrite lookup_insert_ne. Qed.

Lemma lookup_put_mode_ne k k' mode m : k ≠ k' → put_mode k mode m !! k' = m !! k'.
Proof.
  intros Hne. unfold put_mode. destruct (m !! k) as [[]|]; [| |done];
    by rewrite lookup_insert_ne.
Qed.

Lemma lookup_put_text_eq um k c m :
  ∃ md, put_text um k c m !! k = Some (File c md).
Proof. unfold put_text. rewrite lookup_insert_eq. eauto. Qed.

Lemma lookup_put_mode_file k mode c md m :
  m !! k = Some (File c md) → put_mode k mode m !! k = Some (File c mode).
Proof. intros Hk. unfold put_mode. rewrite Hk. by rewrite lookup_insert_eq. Qed.

Lemma lookup_put_dir_eq um k m :
  (∀ c md, m !! k ≠ Some (File c md)) → ∃ md, put_dir um k m !! k = Some (Dir md).
Proof.
  intros Hk. unfold put_dir. destruct (m !! k) as [[c md|md]|] eqn:E.
  - by destruct (Hk c md).
  - rewrite E. eauto.
  - rewrite lookup_insert_eq. eauto.
Qed.

Lemma put_dir_present um k m : is_Some (m !! k) → put_dir um k m = m.
Proof. intros [n Hk]. unfold put_dir. by rewrite Hk. Qed.

Lemma put_empty_file_present um k m : is_Some (m !! k) → put_empty_file um k m = m.
Proof. intros [n Hk]. unfold put_empty_file. by rewrite Hk. Qed.

Lemma put_text_same um k c md m : m !! k = Some (File c md) → put_text um k c m = m.
Proof. intros Hk. unfold put_text. rewrite Hk. by apply insert_id. Qed.

Lemma put_mode_same k c mode m : m !! k = Some (File c mode) → put_mode k mode m = m.
Proof. intros Hk. unfold put_mode. rewrite Hk. by apply insert_id. Qed.

Lemma put_text_twice um k c c' md m :
  m !! k = Some (File c md) → put_text um k c (put_text um k c' m) = m.
Proof.
  intros Hk. unfold put_text. rewrite lookup_insert_eq, Hk, insert_insert_eq.
  by apply insert_id.
Qed.

Lemma dir_le_put_dir um k m : dir_le m (put_dir um k m).
Proof. unfold put_dir. destruct (m !! k); [done|]. apply dir_le_insert_dir. Qed.

(** The calls on an entry that is not in the way return, with these trees. *)

Lemma Path_mkdir_child_ok d K x w :
  dir_at w d K → simple_name x →
  (∀ c md, fs w !! (K ++ [x]) ≠ Some (File c md)) →
  ∃ w', Path_mkdir (d </> x) w = Ok (tt, w') ∧
        fs w' = put_dir (umask w) (K ++ [x]) (fs w) ∧
        extends w w' ∧ effect (EMkdir (d </> x)) w w'.
Proof.
  intros Hd Hx Hk. rewrite (Path_mkdir_child _ K) by done. unfold put_dir.
  destruct (fs w !! (K ++ [x])) as [[c md|md]|] eqn:E.
  - by destruct (Hk c md).
  - eexists. split; [done|]. split; [done|]. split; [apply extends_tick|apply effect_tick].
  - eexists. split; [done|]. split; [done|]. split; [|by repeat split].
    split; [by repeat split|]. apply dir_le_insert_dir.
Qed.

Lemma Path_touch_ok d K x w :
  dir_at w d K → simple_name x →
  ∃ w', Path_touch (d </> x) w = Ok (tt, w') ∧
        fs w' = put_empty_file (umask w) (K ++ [x]) (fs w) ∧
        extends w w' ∧ effect (ETouch (d </> x)) w w'.
Proof.
  intros Hd Hx. rewrite (Path_touch_child _ K) by done. unfold put_empty_file.
  destruct (fs w !! (K ++ [x])) as [n|] eqn:E.
  - eexists. split; [done|]. split; [done|]. split; [apply extends_tick|apply effect_tick].
  - eexists. split; [done|]. split; [done|]. split; [|by repeat split].
    split; [by repeat split|]. simpl. apply dir_le_insert_file. congruence.
Qed.

Lemma write_text_ok d K x c w :
  dir_at w d K → simple_name x →
  (∀ md, fs w !! (K ++ [x]) ≠ Some (Dir md)) →
  ∃ w', write_text (d </> x) c w = Ok (tt, w') ∧
        fs w' = put_text (umask w) (K ++ [x]) c (fs w) ∧
        extends w w' ∧ effect (EWrite (d </> x) c) w w'.
Proof.
  intros Hd Hx Hk. rewrite (write_text_child _ K) by done. unfold put_text.
  destruct (fs w !! (K ++ [x])) as [[c0 md|md]|] eqn:E.
  - eexists. split; [done|]. split; [done|]. split; [|by repeat split].
    split; [by repeat split|]. simpl. apply dir_le_insert_file. congruence.
  - by destruct (Hk md).
  - eexists. split; [done|]. split; [done|]. split; [|by repeat split].
    split; [by repeat split|]. simpl. apply dir_le_insert_file. congruence.
Qed.

Lemma os_chmod_ok d K x mode c md w :
  dir_at w d K → simple_name x →
  fs w !! (K ++ [x]) = Some (File c md) →
  ∃ w', os_chmod (d </> x) mode w = Ok (tt, w') ∧
        fs w' = put_mode (K ++ [x]) mode (fs w) ∧
        extends w w' ∧ effect (EChmod (d </> x) mode) w w'.
Proof.
  intros Hd Hx Hk. rewrite (os_chmod_child _ K) by done. unfold put_mode. rewrite Hk.
  eexists. split; [done|]. split; [done|]. split; [|by repeat split].
  split; [by repeat split|]. simpl. apply dir_le_insert_file. congruence.
Qed.

Lemma now_year_ok w :
  ∃ w', now_year w = Ok (calendar w (ticks w), w') ∧
        fs w' = fs w ∧ extends w w' ∧ effect (EClock (calendar w (ticks w))) w w'.
Proof.
  eexists. split; [done|]. split; [done|]. split; [apply extends_tick|apply effect_tick].
Qed.

End Entries.

(** Two positions differ: in their last names, in their lengths, or in
    names further up. *)
Ltac key_ne :=
  first
    [ apply child_ne_last; discriminate
    | let H := fresh in
      intros H; apply (f_equal length) in H; rewrite ?length_app in H; simpl in H; lia
    | let H := fresh in
      intros H; repeat (apply app_inj_tail in H as [H ?]); simplify_eq ].

(** Settles a lookup through the calls on other entries. *)
Ltac lookup_put :=
  repeat first
    [ rewrite lookup_put_dir_ne by key_ne
    | rewrite lookup_put_empty_file_ne by key_ne
    | rewrite lookup_put_text_ne by key_ne
    | rewrite lookup_put_mode_ne by key_ne ].

(** * Making one directory in an existing one *)

Section Children.

Implicit Types (m : gmap (list string) node) (w : world) (k K : list string)
  (d : Path) (x y : string).

Lemma path_eta d : MkPath (path_anchor d) (parts d) = d.
Proof. by destruct d. Qed.

Lemma os_mkdir_child d K x w :
  dir_at w d K → simple_name x →
  os_mkdir (d </> x) w =
  match fs w !! (K ++ [x]) with
  | Some _ => Err EEXIST
  | None => Ok (set_fs w (<[K ++ [x] := Dir (creation_mode w (octal 7 7 7))]> (fs w)))
  end.
Proof. intros Hd Hx. unfold os_mkdir. by rewrite (resolve_child _ _ K). Qed.

Lemma mkdir_exist_ok_child d K x w :
  dir_at w d K → simple_name x →
  (∀ c md, fs w !! (K ++ [x]) ≠ Some (File c md)) →
  ∃ w', mkdir_exist_ok (d </> x) w = Ok w' ∧
        w' = set_fs w (put_dir (umask w) (K ++ [x]) (fs w)).
Proof.
  intros Hd Hx Hk. unfold mkdir_exist_ok, is_dir, put_dir.
  rewrite (os_mkdir_child _ K), (resolve_child _ _ K) by done.
  destruct (fs w !! (K ++ [x])) as [[c md|md]|] eqn:E.
  - by destruct (Hk c md).
  - eexists. split; [done|]. by destruct w.
  - eexists. split; done.
Qed.

Lemma step_simple K x : simple_name x → step K x = K ++ [x].
Proof. intros [_ Hx]. unfold step. by rewrite decide_False. Qed.

End Children.

(** * Making a directory any number of levels below an existing one *)

Section Below.

Implicit Types (m : gmap (list string) node) (w : world) (k K : list string)
  (d : Path) (x y : string) (xs ys : list string) (um : N).

Lemma below_nil d : below d [] = d.
Proof. unfold below. rewrite app_nil_r. apply path_eta. Qed.

Lemma below_snoc d ys y : simple_name y → below d (ys ++ [y]) = below d ys </> y.
Proof. intros Hy. rewrite truediv_simple by done. unfold below; simpl. by rewrite app_assoc. Qed.

Lemma snoc_app K x xs : (K ++ [x]) ++ xs = K ++ x :: xs.
Proof. by rewrite <- app_assoc. Qed.

Lemma put_dirs_snoc um K ys y m :
  put_dirs um K (ys ++ [y]) m = put_dir um ((K ++ ys) ++ [y]) (put_dirs um K ys m).
Proof.
  revert K m. induction ys as [|x ys IH]; intros K m; simpl.
  - by rewrite app_nil_r.
  - by rewrite IH, snoc_app.
Qed.

Lemma dir_le_put_dirs um K xs m : dir_le m (put_dirs um K xs m).
Proof.
  revert K m. induction xs as [|x xs IH]; intros K m; simpl; [done|].
  trans (put_dir um (K ++ [x]) m); [apply dir_le_put_dir|apply IH].
Qed.

Lemma lookup_put_dirs_longer um K xs k m :
  (length K + length xs < length k)%nat → put_dirs um K xs m !! k = m !! k.
Proof.
  revert K m. induction xs as [|x xs IH]; intros K m Hlen; simpl; [done|].
  rewrite IH by (rewrite length_app; simpl in *; lia).
  apply lookup_put_dir_ne. intros <-. rewrite length_app in Hlen. simpl in Hlen. lia.
Qed.

Lemma put_dirs_present um K xs m : dirs_along m K xs → put_dirs um K xs m = m.
Proof.
  revert K m. induction xs as [|x xs IH]; intros K m Hall; simpl; [done|].
  rewrite put_dir_present.
  - apply IH. intros pre Hpre. rewrite snoc_app. apply (Hall (x :: pre)).
    by apply prefix_cons.
  - destruct (Hall [x]) as [md ->]; [|eauto]. apply prefix_cons, prefix_nil.
Qed.

(** The walk along ordinary names with no regular file on the way reaches
    the end over directories, or stops at a missing one. *)
Lemma walk_simple m K ys :
  Forall simple_name ys →
  (∃ md, m !! K = Some (Dir md)) →
  (∀ pre, pre `prefix_of` ys → ∀ c md, m !! (K ++ pre) ≠ Some (File c md)) →
  (walk m K ys = Ok (K ++ ys) ∧
   ∀ pre, pre `prefix_of` ys → pre ≠ ys → ∃ md, m !! (K ++ pre) = Some (Dir md))
  ∨ walk m K ys = Err ENOENT.
Proof.
  intros Hys. revert K. induction Hys as [|y ys Hy Hys IH]; intros K [mdK HK] Hfree.
  - left. split; [by rewrite app_nil_r|]. intros pre ->%prefix_nil_inv. done.
  - simpl. rewrite HK, (step_simple K y) by done.
    destruct (m !! (K ++ [y])) as [[c md|md]|] eqn:E.
    + destruct (Hfree [y] ltac:(apply prefix_cons, prefix_nil) c md E).
    + destruct (IH (K ++ [y])) as [[Hw Hpre]|Hw]; [by eauto| |left|by right].
      { intros pre Hp c md'. rewrite snoc_app. apply (Hfree (y :: pre)).
        by apply prefix_cons. }
      split; [by rewrite Hw, snoc_app|].
      intros pre Hp Hne. destruct pre as [|y' pre].
      * rewrite app_nil_r. eauto.
      * apply prefix_cons_inv_1 in Hp as Hy'. subst y'.
        apply prefix_cons_inv_2 in Hp.
        rewrite <- snoc_app. apply Hpre; [done|congruence].
    + destruct ys as [|y2 ys].
      * left. split; [done|]. intros pre Hp Hne.
        destruct pre as [|y' pre]; [rewrite app_nil_r; eauto|].
        apply prefix_cons_inv_1 in Hp as Hy'. subst y'.
        apply prefix_cons_inv_2, prefix_nil_inv in Hp. by subst pre.
      * right. simpl. by rewrite E.
Qed.

Lemma mkdir_parents_existing a rparts w :
  is_dir w (MkPath a (rev rparts)) = true → mkdir_parents a rparts w = Ok w.
Proof.
  intros Hdir. pose proof Hdir as Hdir'. unfold is_dir in Hdir'.
  destruct (resolve w (MkPath a (rev rparts))) as [k|] eqn:Hr; [|done].
  destruct (fs w !! k) as [[]|] eqn:Hk; try done.
  destruct rparts as [|x up]; cbn [mkdir_parents]; unfold os_mkdir;
    by rewrite Hr, Hk, Hdir.
Qed.

(** [mkdir -p] of [x1/.../xn] below the existing directory [d] returns when
    no regular file is in the way, and makes exactly the missing directories. *)
Lemma mkdir_parents_below d K xs w :
  dir_at w d K →
  Forall simple_name xs →
  (∀ pre, pre `prefix_of` xs → ∀ c md, fs w !! (K ++ pre) ≠ Some (File c md)) →
  mkdir_parents (path_anchor d) (rev (parts d ++ xs)) w
    = Ok (set_fs w (put_dirs (umask w) K xs (fs w))) ∧
  dir_at (set_fs w (put_dirs (umask w) K xs (fs w))) (below d xs) (K ++ xs).
Proof.
  intros Hd. induction xs as [|y ys IH] using rev_ind; intros Hxs Hfree.
  - rewrite app_nil_r. simpl. assert (set_fs w (fs w) = w) as -> by by destruct w.
    rewrite below_nil, app_nil_r. split; [|done].
    apply mkdir_parents_existing. rewrite rev_involutive, path_eta.
    apply is_dir_dir_at. eauto.
  - apply Forall_app in Hxs as [Hys Hy]. apply Forall_inv in Hy.
    destruct IH as [IHrun IHat]; [done| |].
    { intros pre Hp. apply Hfree. by apply prefix_app_r. }
    set (w1 := set_fs w (put_dirs (umask w) K ys (fs w))) in *.
    assert (extends w w1) as X1.
    { split; [by repeat split|]. apply dir_le_put_dirs. }
    assert (∀ c md, fs w1 !! ((K ++ ys) ++ [y]) ≠ Some (File c md)) as Hfree1.
    { intros c md. unfold w1; simpl. rewrite lookup_put_dirs_longer.
      - rewrite <- app_assoc. by apply Hfree.
      - rewrite !length_app. simpl. lia. }
    destruct (mkdir_exist_ok_child (below d ys) (K ++ ys) y w1 IHat Hy Hfree1)
      as (w2 & R2 & Hw2).
    assert (set_fs w (put_dirs (umask w) K (ys ++ [y]) (fs w)) = w2) as ->.
    { rewrite Hw2, put_dirs_snoc. done. }
    rewrite app_assoc, (app_assoc K ys [y]), below_snoc by done.
    split.
    + (* the run *)
      rewrite rev_unit. cbn [mkdir_parents].
      assert (MkPath (path_anchor d) (rev (y :: rev (parts d ++ ys))) = below d ys </> y)
        as ->.
      { simpl rev. rewrite rev_involutive, truediv_simple by done. done. }
      destruct (walk_simple (fs w) K ys Hys) as [[Hw Hpre]|Hw].
      { destruct Hd as [_ HK]. done. }
      { intros pre Hp. apply Hfree. by apply prefix_app_r. }
      * (* the parent resolves *)
        destruct (fs w !! (K ++ ys)) as [[c md|md]|] eqn:E.
        -- destruct (Hfree ys ltac:(by apply prefix_app_r) c md E).
        -- (* the parent is a directory: nothing is missing above [y] *)
           assert (dir_at w (below d ys) (K ++ ys)) as Hat.
           { split; [|eauto]. unfold resolve, start, below; simpl.
             destruct Hd as [Hr _]. unfold resolve, start in Hr. by rewrite walk_app, Hr. }
           assert (put_dirs (umask w) K ys (fs w) = fs w) as Hsame.
           { apply put_dirs_present. intros pre Hp.
             destruct (decide (pre = ys)) as [->|Hne]; [eauto|by apply Hpre]. }
           assert (w1 = w) as Hw1 by (unfold w1; rewrite Hsame; by destruct w).
           rewrite Hw1 in *.
           unfold os_mkdir at 1, is_dir. rewrite (resolve_child _ _ (K ++ ys)) by done.
           rewrite Hw2. unfold put_dir.
           destruct (fs w !! ((K ++ ys) ++ [y])) as [[c' md'|md']|] eqn:E2.
           ++ by destruct (Hfree1 c' md').
           ++ by destruct w.
           ++ done.
        -- (* the parent is missing *)
           assert (resolve w (below d ys </> y) = Err ENOENT) as Hr2.
           { rewrite truediv_simple by done. unfold resolve, start, below; simpl.
             destruct Hd as [Hr _]. unfold resolve, start in Hr.
             rewrite <- app_assoc, walk_app, Hr, walk_app, Hw. simpl. by rewrite E. }
           unfold os_mkdir at 1. rewrite Hr2. rewrite IHrun. exact R2.
      * (* a directory above the parent is missing *)
        assert (resolve w (below d ys </> y) = Err ENOENT) as Hr2.
        { rewrite truediv_simple by done. unfold resolve, start, below; simpl.
          destruct Hd as [Hr _]. unfold resolve, start in Hr.
          by rewrite <- app_assoc, walk_app, Hr, walk_app, Hw. }
        unfold os_mkdir at 1. rewrite Hr2. rewrite IHrun. exact R2.
    + (* the directory is there *)
      assert (extends w1 w2) as X2.
      { rewrite Hw2. split; [by repeat split|]. apply dir_le_put_dir. }
      apply dir_at_child; [by eapply dir_at_extends|done|].
      rewrite Hw2. unfold has_dir; simpl. by apply lookup_put_dir_eq.
Qed.

(** The same for the call of a generator, which is logged. *)
Lemma Path_mkdir_below_ok d K xs w :
  dir_at w d K →
  Forall simple_name xs →
  (∀ pre, pre `prefix_of` xs → ∀ c md, fs w !! (K ++ pre) ≠ Some (File c md)) →
  ∃ w', Path_mkdir (below d xs) w = Ok (tt, w') ∧
        fs w' = put_dirs (umask w) K xs (fs w) ∧
        extends w w' ∧ effect (EMkdir (below d xs)) w w' ∧
        dir_at w' (below d xs) (K ++ xs).
Proof.
  intros Hd Hxs Hfree.
  destruct (mkdir_parents_below d K xs w Hd Hxs Hfree) as [Hrun Hat].
  unfold Path_mkdir. simpl. rewrite Hrun.
  eexists. split; [done|]. split; [done|]. split; [|split; [by repeat split|]].
  - split; [by repeat split|]. apply dir_le_put_dirs.
  - eapply dir_at_extends; [|exact Hat]. apply extends_tick.
Qed.


(** Two levels: [d / x / y] below the existing directory [d]. *)
Lemma Path_mkdir_grandchild_ok d K x y w :
  dir_at w d K → simple_name x → simple_name y →
  (∀ c md, fs w !! (K ++ [x]) ≠ Some (File c md)) →
  (∀ c md, fs w !! ((K ++ [x]) ++ [y]) ≠ Some (File c md)) →
  ∃ w', Path_mkdir (d </> x </> y) w = Ok (tt, w') ∧
        fs w' = put_dir (umask w) ((K ++ [x]) ++ [y]) (put_dir (umask w) (K ++ [x]) (fs w)) ∧
        extends w w' ∧ effect (EMkdir (d </> x </> y)) w w'.
Proof.
  intros Hd Hx Hy Hkx Hky.
  assert (below d [x; y] = d </> x </> y) as Hpath.
  { rewrite !truediv_simple by done. unfold below; simpl. by rewrite <- app_assoc. }
  destruct (Path_mkdir_below_ok d K [x; y] w) as (w' & R & F & X & E & _); [done| | |].
  { constructor; [done|constructor; [done|constructor]]. }
  { intros pre Hp c md. destruct pre as [|p [|q pre]].
    - rewrite app_nil_r. destruct Hd as [_ [md' ->]]. done.
    - apply prefix_cons_inv_1 in Hp as ->. apply Hkx.
    - pose proof (prefix_cons_inv_1 _ _ _ _ Hp) as ->.
      apply prefix_cons_inv_2 in Hp.
      pose proof (prefix_cons_inv_1 _ _ _ _ Hp) as ->.
      apply prefix_cons_inv_2, prefix_nil_inv in Hp as ->.
      rewrite <- snoc_app. apply Hky. }
  rewrite Hpath in R, E. exists w'. by simpl in F.
Qed.

End Below.


(** * Running the data-project generator on an existing project directory *)

Section DataProjectRuns.

Import Scaffold.

Implicit Types (m : gmap (list string) node) (w : world) (K : list string) (P : Path)
  (um : N).

Lemma extends_umask w w' : extends w w' → umask w' = umask w.
Proof. by intros [(_ & ? & _) _]. Qed.

Lemma extends_calendar w w' : extends w w' → calendar w' = calendar w.
Proof. by intros [(_ & _ & ?) _]. Qed.

Lemma effect_ticks ev w w' : effect ev w w' → ticks w' = S (ticks w).
Proof. by intros (_ & ? & _). Qed.

(** Once the first call has made [data], and with it the project directory,
    the other calls return when nothing is in their way. *)
Lemma create_project_after_first_mkdir project_name base_path w w1 K :
  let P := base_path </> project_name in
  Path_mkdir (P </> "data") w = Ok (tt, w1) →
  extends w w1 → effect (EMkdir (P </> "data")) w w1 →
  dir_at w1 P K →
  data_ready (fs w1) K →
  ∃ w', create_project project_name base_path w = Ok (tt, w') ∧
        fs w' = data_tree_rest (umask w) K (calendar w (7 + ticks w)%nat) (fs w1) ∧
        extends w w'.
Proof.
  intros P R1 X1 E1 HP1 [Hdirs Hfiles].
  assert (∀ x, x ∈ directories → ∀ c md, fs w1 !! (K ++ [x]) ≠ Some (File c md)) as Hd
    by done.
  unfold directories in Hd.
  pose proof (extends_umask _ _ X1) as U1.
  destruct (Path_mkdir_child_ok P K "output" w1) as (w2 & R2 & F2 & X2 & E2);
    [done|solve_simple|apply Hd; set_solver|].
  pose proof (dir_at_extends _ _ _ _ X2 HP1) as HP2.
  pose proof (extends_umask _ _ X2) as U2. rewrite U1 in U2, F2.
  destruct (Path_mkdir_child_ok P K "logs" w2) as (w3 & R3 & F3 & X3 & E3);
    [done|solve_simple|rewrite F2; lookup_put; apply Hd; set_solver|].
  pose proof (dir_at_extends _ _ _ _ X3 HP2) as HP3.
  pose proof (extends_umask _ _ X3) as U3. rewrite U2 in U3, F3. rewrite F2 in F3.
  destruct (Path_mkdir_child_ok P K "bash" w3) as (w4 & R4 & F4 & X4 & E4);
    [done|solve_simple|rewrite F3; lookup_put; apply Hd; set_solver|].
  pose proof (dir_at_extends _ _ _ _ X4 HP3) as HP4.
  pose proof (extends_umask _ _ X4) as U4. rewrite U3 in U4, F4. rewrite F3 in F4.
  destruct (Path_touch_ok P K "config.py" w4) as (w5 & R5 & F5 & X5 & E5);
    [done|solve_simple|].
  pose proof (dir_at_extends _ _ _ _ X5 HP4) as HP5.
  pose proof (extends_umask _ _ X5) as U5. rewrite U4 in U5, F5. rewrite F4 in F5.
  destruct (write_text_ok P K "helpers.py" helpers_content w5) as (w6 & R6 & F6 & X6 & E6);
    [done|solve_simple|rewrite F5; lookup_put; apply Hfiles; set_solver|].
  pose proof (dir_at_extends _ _ _ _ X6 HP5) as HP6.
  pose proof (extends_umask _ _ X6) as U6. rewrite U5 in U6, F6. rewrite F5 in F6.
  destruct (write_text_ok P K ".gitignore" gitignore_content w6) as (w7 & R7 & F7 & X7 & E7);
    [done|solve_simple|rewrite F6; lookup_put; apply Hfiles; set_solver|].
  pose proof (dir_at_extends _ _ _ _ X7 HP6) as HP7.
  pose proof (extends_umask _ _ X7) as U7. rewrite U6 in U7, F7. rewrite F6 in F7.
  destruct (now_year_ok w7) as (w8 & R8 & F8 & X8 & E8).
  pose proof (dir_at_extends _ _ _ _ X8 HP7) as HP8.
  pose proof (extends_umask _ _ X8) as U8. rewrite U7 in U8. rewrite F7 in F8.
  assert (calendar w7 (ticks w7) = calendar w (7 + ticks w)%nat) as Hyear.
  { assert (extends w w7) as Xw by chain_extends.
    rewrite (extends_calendar _ _ Xw).
    by rewrite (effect_ticks _ _ _ E7), (effect_ticks _ _ _ E6), (effect_ticks _ _ _ E5),
      (effect_ticks _ _ _ E4), (effect_ticks _ _ _ E3), (effect_ticks _ _ _ E2),
      (effect_ticks _ _ _ E1). }
  rewrite Hyear in R8, E8.
  set (year := calendar w (7 + ticks w)%nat) in *.
  destruct (write_text_ok P K "LICENSE" (license_content year) w8)
    as (w9 & R9 & F9 & X9 & E9);
    [done|solve_simple|rewrite F8; lookup_put; apply Hfiles; set_solver|].
  pose proof (dir_at_extends _ _ _ _ X9 HP8) as HP9.
  pose proof (extends_umask _ _ X9) as U9. rewrite U8 in U9, F9. rewrite F8 in F9.
  destruct (write_text_ok P K "README.md" readme_content w9) as (w10 & R10 & F10 & X10 & E10);
    [done|solve_simple|rewrite F9; lookup_put; apply Hfiles; set_solver|].
  pose proof (dir_at_extends _ _ _ _ X10 HP9) as HP10.
  pose proof (extends_umask _ _ X10) as U10. rewrite U9 in U10, F10. rewrite F9 in F10.
  destruct (write_text_ok P K "run.bash" run_bash_content w10) as (w11 & R11 & F11 & X11 & E11);
    [done|solve_simple|rewrite F10; lookup_put; apply Hfiles; set_solver|].
  pose proof (dir_at_extends _ _ _ _ X11 HP10) as HP11.
  pose proof (extends_umask _ _ X11) as U11. rewrite U10 in U11, F11. rewrite F10 in F11.
  destruct (lookup_put_text_eq (umask w) (K ++ ["run.bash"]) run_bash_content
              (put_text (umask w) (K ++ ["README.md"]) readme_content
              (put_text (umask w) (K ++ ["LICENSE"]) (license_content year)
              (put_text (umask w) (K ++ [".gitignore"]) gitignore_content
              (put_text (umask w) (K ++ ["helpers.py"]) helpers_content
              (put_empty_file (umask w) (K ++ ["config.py"])
              (put_dir (umask w) (K ++ ["bash"])
              (put_dir (umask w) (K ++ ["logs"])
              (put_dir (umask w) (K ++ ["output"]) (fs w1)))))))))) as [md11 L11].
  rewrite <- F11 in L11.
  destruct (os_chmod_ok P K "run.bash" (octal 7 5 5) _ _ w11 HP11 ltac:(solve_simple) L11)
    as (w12 & R12 & F12 & X12 & E12).
  pose proof (dir_at_extends _ _ _ _ X12 HP11) as HP12.
  pose proof (extends_umask _ _ X12) as U12. rewrite U11 in U12.
  pose proof (lookup_put_mode_file _ (octal 7 5 5) _ _ _ L11) as L12. rewrite <- F12 in L12.
  rewrite F11 in F12.
  destruct (os_chmod_ok P K "run.bash" (octal 7 5 5) _ _ w12 HP12 ltac:(solve_simple) L12)
    as (w13 & R13 & F13 & X13 & E13).
  pose proof (dir_at_extends _ _ _ _ X13 HP12) as HP13.
  pose proof (extends_umask _ _ X13) as U13. rewrite U12 in U13. rewrite F12 in F13.
  destruct (write_text_ok P K ".gitignore" final_gitignore_content w13)
    as (w14 & R14 & F14 & X14 & E14);
    [done|solve_simple| |].
  { rewrite F13. lookup_put.
    destruct (lookup_put_text_eq (umask w) (K ++ [".gitignore"]) gitignore_content
                (put_text (umask w) (K ++ ["helpers.py"]) helpers_content
                (put_empty_file (umask w) (K ++ ["config.py"])
                (put_dir (umask w) (K ++ ["bash"])
                (put_dir (umask w) (K ++ ["logs"])
                (put_dir (umask w) (K ++ ["output"]) (fs w1))))))) as [md ->].
    done. }
  rewrite U13, F13 in F14.
  exists w14. split; [|split; [exact F14|chain_extends]].
  unfold create_project. fold P.
  assert (for_each directories (λ dir_path, Path_mkdir (P </> dir_path)) w = Ok (tt, w4))
    as Rdirs.
  { unfold directories, for_each.
    rewrite (bind_ok _ _ _ _ _ R1), (bind_ok _ _ _ _ _ R2), (bind_ok _ _ _ _ _ R3),
      (bind_ok _ _ _ _ _ R4). done. }
  assert (create_license P w7 = Ok (tt, w9)) as Rlicense.
  { unfold create_license. by rewrite (bind_ok _ _ _ _ _ R8). }
  assert (create_run_bash P w10 = Ok (tt, w12)) as Rrun.
  { unfold create_run_bash. by rewrite (bind_ok _ _ _ _ _ R11). }
  rewrite (bind_ok _ _ _ _ _ Rdirs), (bind_ok _ _ _ _ _ R5).
  unfold create_helpers at 1. rewrite (bind_ok _ _ _ _ _ R6).
  unfold create_gitignore at 1. rewrite (bind_ok _ _ _ _ _ R7).
  rewrite (bind_ok _ _ _ _ _ Rlicense).
  unfold create_readme at 1. rewrite (bind_ok _ _ _ _ _ R10).
  rewrite (bind_ok _ _ _ _ _ Rrun), (bind_ok _ _ _ _ _ R13). exact R14.
Qed.


Lemma data_ready_put_data um K m : data_ready m K → data_ready (put_dir um (K ++ ["data"]) m) K.
Proof.
  intros [Hd Hf]. split.
  - intros x Hx c md. unfold put_dir.
    destruct (m !! (K ++ ["data"])) as [n|] eqn:E; [by apply Hd|].
    destruct (decide (x = "data")) as [->|Hne].
    + by rewrite lookup_insert_eq.
    + rewrite lookup_insert_ne by (apply child_ne; congruence). by apply Hd.
  - intros x Hx md. rewrite lookup_put_dir_ne; [by apply Hf|].
    repeat (apply elem_of_cons in Hx as [->|Hx]); [..|by apply elem_of_nil in Hx];
      apply child_ne_last; discriminate.
Qed.

(** The generator returns in a project directory that exists already, when
    nothing is in its way there. *)
Lemma create_project_ok project_name base_path w K :
  dir_at w (base_path </> project_name) K →
  data_ready (fs w) K →
  ∃ w', create_project project_name base_path w = Ok (tt, w') ∧
        fs w' = data_tree (umask w) K (calendar w (7 + ticks w)%nat) (fs w) ∧
        extends w w'.
Proof.
  intros HP Hready. set (P := base_path </> project_name) in *.
  destruct (Path_mkdir_child_ok P K "data" w) as (w1 & R1 & F1 & X1 & E1);
    [done|solve_simple|apply Hready; unfold directories; set_solver|].
  destruct (create_project_after_first_mkdir project_name base_path w w1 K)
    as (w' & Hrun & Hfs & Hext); [done..|by eapply dir_at_extends| |].
  { rewrite F1. by apply data_ready_put_data. }
  exists w'. split; [done|]. split; [|done]. by rewrite Hfs, F1.
Qed.


(** A generated project is not in the way of a second run. *)
Lemma data_project_at_ready w P K year : data_project_at w P K year → data_ready (fs w) K.
Proof.
  intros [_ Hdirs _ [mdh Hh] [mdg Hg] [mdl Hl] [mdr Hr] Hrb]. split.
  - intros x Hx c md. destruct (Hdirs x Hx) as [md' ->]. done.
  - intros x Hx md.
    repeat (apply elem_of_cons in Hx as [->|Hx]); [| | | | |by apply elem_of_nil in Hx];
      congruence.
Qed.

(** A second run rebuilds the tree that the first one left. *)
Lemma data_tree_fixed um w P K year :
  data_project_at w P K year → data_tree um K year (fs w) = fs w.
Proof.
  intros [_ Hdirs Hc [mdh Hh] [mdg Hg] [mdl Hl] [mdr Hr] Hrb].
  unfold data_tree, data_tree_rest.
  assert (∀ x, x ∈ directories → is_Some (fs w !! (K ++ [x]))) as Hd.
  { intros x Hx. destruct (Hdirs x Hx) as [md ->]. eauto. }
  unfold directories in Hd.
  rewrite (put_dir_present _ (K ++ ["data"])) by (apply Hd; set_solver).
  rewrite (put_dir_present _ (K ++ ["output"])) by (apply Hd; set_solver).
  rewrite (put_dir_present _ (K ++ ["logs"])) by (apply Hd; set_solver).
  rewrite (put_dir_present _ (K ++ ["bash"])) by (apply Hd; set_solver).
  rewrite put_empty_file_present by done.
  rewrite (put_text_same _ (K ++ ["helpers.py"]) _ mdh) by done.
  set (m1 := put_text um (K ++ [".gitignore"]) gitignore_content (fs w)).
  assert (∀ x, x ≠ ".gitignore" → m1 !! (K ++ [x]) = fs w !! (K ++ [x])) as Hm1.
  { intros x Hx. unfold m1. rewrite lookup_put_text_ne; [done|]. by apply child_ne. }
  rewrite (put_text_same _ (K ++ ["LICENSE"]) _ mdl m1) by (by rewrite Hm1).
  rewrite (put_text_same _ (K ++ ["README.md"]) _ mdr m1) by (by rewrite Hm1).
  rewrite (put_text_same _ (K ++ ["run.bash"]) _ (octal 7 5 5) m1) by (by rewrite Hm1).
  rewrite !(put_mode_same (K ++ ["run.bash"]) run_bash_content _ m1) by (by rewrite Hm1).
  by apply put_text_twice with mdg.
Qed.

End DataProjectRuns.

(** * Running the package generator *)

Section PackageRuns.

Import ScaffoldPackage.

Implicit Types (m : gmap (list string) node) (w : world) (K Ks : list string) (P : Path)
  (um : N).

(** Once the directories are made, the writes return when no directory is
    in their way. *)
Lemma create_project_structure_after_mkdirs project_name base_path w w3 K Ks :
  let P := base_path </> project_name in
  for_each (directories project_name) (λ dir_path, Path_mkdir (P <//> dir_path)) w
    = Ok (tt, w3) →
  extends w w3 → ticks w3 = (3 + ticks w)%nat →
  dir_at w3 P K →
  dir_at w3 (P </> "src" </> project_name) Ks →
  dir_at w3 (P </> "tests") (K ++ ["tests"]) →
  dir_at w3 (P </> "examples") (K ++ ["examples"]) →
  package_files_ready (fs w3) K Ks →
  ∃ w', create_project_structure project_name base_path w = Ok (tt, w') ∧
        fs w' = package_files_tree (umask w) K Ks project_name
                  (calendar w (9 + ticks w)%nat) (fs w3) ∧
        extends w w'.
Proof.
  intros P Rdirs X3 T3 HP3 HS3 HT3 HE3 Hf.
  pose proof (extends_umask _ _ X3) as U3.
  (* the files *)
  destruct (write_text_ok (P </> "src" </> project_name) Ks "__init__.py"
              (init_content project_name) w3) as (w4 & R4 & F4 & X4 & E4);
    [done|solve_simple|apply Hf; set_solver|].
  pose proof (extends_umask _ _ X4) as U4. rewrite U3 in U4, F4.
  pose proof (dir_at_extends _ _ _ _ X4 HS3) as HS4.
  destruct (write_text_ok (P </> "src" </> project_name) Ks "base.py" base_content w4)
    as (w5 & R5 & F5 & X5 & E5);
    [done|solve_simple|rewrite F4; lookup_put; apply Hf; set_solver|].
  pose proof (extends_umask _ _ X5) as U5. rewrite U4 in U5, F5. rewrite F4 in F5.
  assert (dir_at w5 (P </> "tests") (K ++ ["tests"])) as HT5.
  { eapply dir_at_extends; [|exact HT3]. chain_extends. }
  destruct (write_text_ok (P </> "tests") (K ++ ["tests"]) "test_module1.py" test_content w5)
    as (w6 & R6 & F6 & X6 & E6);
    [done|solve_simple|rewrite F5; lookup_put; apply Hf; set_solver|].
  pose proof (extends_umask _ _ X6) as U6. rewrite U5 in U6, F6. rewrite F5 in F6.
  assert (dir_at w6 (P </> "examples") (K ++ ["examples"])) as HE6.
  { eapply dir_at_extends; [|exact HE3]. chain_extends. }
  destruct (write_text_ok (P </> "examples") (K ++ ["examples"]) "basic_usage.py"
              example_content w6) as (w7 & R7 & F7 & X7 & E7);
    [done|solve_simple|rewrite F6; lookup_put; apply Hf; set_solver|].
  pose proof (extends_umask _ _ X7) as U7. rewrite U6 in U7, F7. rewrite F6 in F7.
  assert (dir_at w7 P K) as HP7.
  { eapply dir_at_extends; [|exact HP3]. chain_extends. }
  destruct (write_text_ok P K "pyproject.toml" (pyproject_content project_name) w7)
    as (w8 & R8 & F8 & X8 & E8);
    [done|solve_simple|rewrite F7; lookup_put; apply Hf; set_solver|].
  pose proof (extends_umask _ _ X8) as U8. rewrite U7 in U8, F8. rewrite F7 in F8.
  pose proof (dir_at_extends _ _ _ _ X8 HP7) as HP8.
  destruct (write_text_ok P K "README.md" (readme_content project_name) w8)
    as (w9 & R9 & F9 & X9 & E9);
    [done|solve_simple|rewrite F8; lookup_put; apply Hf; set_solver|].
  pose proof (extends_umask _ _ X9) as U9. rewrite U8 in U9, F9. rewrite F8 in F9.
  pose proof (dir_at_extends _ _ _ _ X9 HP8) as HP9.
  destruct (now_year_ok w9) as (w10 & R10 & F10 & X10 & E10).
  pose proof (extends_umask _ _ X10) as U10. rewrite U9 in U10. rewrite F9 in F10.
  pose proof (dir_at_extends _ _ _ _ X10 HP9) as HP10.
  assert (calendar w9 (ticks w9) = calendar w (9 + ticks w)%nat) as Hyear.
  { assert (extends w w9) as Xw by chain_extends.
    rewrite (extends_calendar _ _ Xw).
    by rewrite (effect_ticks _ _ _ E9), (effect_ticks _ _ _ E8), (effect_ticks _ _ _ E7),
      (effect_ticks _ _ _ E6), (effect_ticks _ _ _ E5), (effect_ticks _ _ _ E4), T3. }
  rewrite Hyear in R10, E10.
  set (year := calendar w (9 + ticks w)%nat) in *.
  destruct (write_text_ok P K "LICENSE" (license_content year) w10)
    as (w11 & R11 & F11 & X11 & E11);
    [done|solve_simple|rewrite F10; lookup_put; apply Hf; set_solver|].
  pose proof (extends_umask _ _ X11) as U11. rewrite U10 in U11, F11. rewrite F10 in F11.
  pose proof (dir_at_extends _ _ _ _ X11 HP10) as HP11.
  destruct (write_text_ok P K ".gitignore" gitignore_content w11)
    as (w12 & R12 & F12 & X12 & E12);
    [done|solve_simple|rewrite F11; lookup_put; apply Hf; set_solver|].
  rewrite U11, F11 in F12.
  exists w12. split; [|split; [exact F12|chain_extends]].
  unfold create_project_structure. fold P.
  assert (create_license P w9 = Ok (tt, w11)) as Rlicense.
  { unfold create_license. by rewrite (bind_ok _ _ _ _ _ R10). }
  rewrite (bind_ok _ _ _ _ _ Rdirs).
  unfold create_init_file at 1. rewrite (bind_ok _ _ _ _ _ R4).
  unfold create_base_file at 1. rewrite (bind_ok _ _ _ _ _ R5).
  unfold create_test_file at 1. rewrite (bind_ok _ _ _ _ _ R6).
  unfold create_example_file at 1. rewrite (bind_ok _ _ _ _ _ R7).
  unfold create_pyproject_toml at 1. rewrite (bind_ok _ _ _ _ _ R8).
  unfold create_readme at 1. rewrite (bind_ok _ _ _ _ _ R9).
  rewrite (bind_ok _ _ _ _ _ Rlicense). exact R12.
Qed.

End PackageRuns.

(** * The package generator in an existing directory and for a new project *)

Section PackageStarts.

Import ScaffoldPackage.

Implicit Types (m : gmap (list string) node) (w : world) (K Kb : list string) (P : Path)
  (um : N).

Lemma create_project_structure_empty_name_ok base_path w K :
  dir_at w base_path K →
  package_ready (fs w) K →
  ∃ w', create_project_structure EmptyString base_path w = Ok (tt, w') ∧
        fs w' = package_tree (umask w) K (calendar w (9 + ticks w)%nat) (fs w) ∧
        extends w w'.
Proof.
  intros HP [Hd Hf]. set (P := base_path) in *.
  destruct (Path_mkdir_child_ok P K "src" w) as (w1 & R1 & F1 & X1 & E1);
    [done|solve_simple|apply Hd; set_solver|].
  pose proof (extends_umask _ _ X1) as U1.
  pose proof (dir_at_extends _ _ _ _ X1 HP) as HP1.
  destruct (Path_mkdir_grandchild_ok P K "tests" "test_data" w1) as (w2 & R2 & F2 & X2 & E2);
    [done|solve_simple|solve_simple
    |rewrite F1; lookup_put; apply Hd; set_solver
    |rewrite F1; lookup_put; apply Hd; set_solver|].
  pose proof (extends_umask _ _ X2) as U2. rewrite U1 in U2, F2. rewrite F1 in F2.
  pose proof (dir_at_extends _ _ _ _ X2 HP1) as HP2.
  destruct (Path_mkdir_child_ok P K "examples" w2) as (w3 & R3 & F3 & X3 & E3);
    [done|solve_simple|rewrite F2; lookup_put; apply Hd; set_solver|].
  pose proof (extends_umask _ _ X3) as U3. rewrite U2 in U3, F3. rewrite F2 in F3.
  pose proof (dir_at_extends _ _ _ _ X3 HP2) as HP3.
  destruct (create_project_structure_after_mkdirs EmptyString base_path w w3 K (K ++ ["src"]))
    as (w' & Hrun & Hfs & Hext).
  - unfold directories, for_each.
    rewrite planned_src, planned_tests, planned_examples, !truediv_empty. fold P.
    by rewrite (bind_ok _ _ _ _ _ R1), (bind_ok _ _ _ _ _ R2), (bind_ok _ _ _ _ _ R3).
  - chain_extends.
  - by rewrite (effect_ticks _ _ _ E3), (effect_ticks _ _ _ E2), (effect_ticks _ _ _ E1).
  - by rewrite truediv_empty.
  - rewrite !truediv_empty. apply dir_at_child; [done|solve_simple|].
    unfold has_dir. rewrite F3. lookup_put. apply lookup_put_dir_eq. apply Hd. set_solver.
  - rewrite truediv_empty. apply dir_at_child; [done|solve_simple|].
    unfold has_dir. rewrite F3. lookup_put. apply lookup_put_dir_eq. lookup_put.
    apply Hd. set_solver.
  - rewrite truediv_empty. apply dir_at_child; [done|solve_simple|].
    unfold has_dir. rewrite F3. apply lookup_put_dir_eq. lookup_put. apply Hd. set_solver.
  - intros k Hk md. rewrite F3.
    repeat (apply elem_of_cons in Hk as [->|Hk]); [..|by apply elem_of_nil in Hk];
      lookup_put; apply Hf; set_solver.
  - exists w'. split; [done|]. split; [|done]. by rewrite Hfs, F3.
Qed.


End PackageStarts.

(** * What a later reader of the tree sees *)

Section Observations.

Implicit Types (w : world) (K : list string) (d : Path) (x : string).

Lemma read_file_child w d K x c md :
  dir_at w d K → simple_name x → fs w !! (K ++ [x]) = Some (File c md) →
  read_file w (d </> x) = Ok c.
Proof.
  intros Hd Hx Hk. unfold read_file. rewrite (resolve_child _ _ K) by done.
  by rewrite Hk.
Qed.

Lemma stat_mode_child w d K x c md :
  dir_at w d K → simple_name x → fs w !! (K ++ [x]) = Some (File c md) →
  stat_mode w (d </> x) = Ok md.
Proof.
  intros Hd Hx Hk. unfold stat_mode. rewrite (resolve_child _ _ K) by done.
  by rewrite Hk.
Qed.


Lemma is_dir_child_of w d K x :
  dir_at w d K → simple_name x → has_dir w (K ++ [x]) → is_dir w (d </> x) = true.
Proof.
  intros Hd Hx Hk. apply is_dir_dir_at. exists (K ++ [x]). by apply dir_at_child.
Qed.

End Observations.

(** * What the calls leave alone *)

Section Frames.

Implicit Types (m : gmap (list string) node) (w : world) (k K : list string) (p : Path).

Lemma same_kind_refl n : same_kind n n = true.
Proof. by destruct n. Qed.

Lemma same_kind_trans n1 n2 n3 :
  same_kind n1 n2 = true → same_kind n2 n3 = true → same_kind n1 n3 = true.
Proof. by destruct n1, n2, n3. Qed.

Global Instance keeps_entries_preorder : PreOrder keeps_entries.
Proof.
  split.
  - intros m k n Hk. exists n. split; [done|apply same_kind_refl].
  - intros m1 m2 m3 H12 H23 k n Hk.
    destruct (H12 _ _ Hk) as (n2 & Hk2 & Hs2). destruct (H23 _ _ Hk2) as (n3 & Hk3 & Hs3).
    exists n3. split; [done|by eapply same_kind_trans].
Qed.

Lemma keeps_entries_insert m k n :
  (∀ n0, m !! k = Some n0 → same_kind n0 n = true) → keeps_entries m (<[k := n]> m).
Proof.
  intros Hk k' n' Hk'. destruct (decide (k = k')) as [->|Hne].
  - exists n. rewrite lookup_insert_eq. split; [done|by apply Hk].
  - exists n'. rewrite lookup_insert_ne by done. split; [done|apply same_kind_refl].
Qed.

Lemma unchanged_except_refl ks m : unchanged_except ks m m.
Proof. by intros k n _ Hk. Qed.

Lemma unchanged_except_trans ks1 ks2 m1 m2 m3 :
  unchanged_except ks1 m1 m2 → unchanged_except ks2 m2 m3 →
  unchanged_except (ks1 ++ ks2) m1 m3.
Proof.
  intros H12 H23 k n Hk Hn. apply not_elem_of_app in Hk as [Hk1 Hk2].
  apply H23; [done|]. by apply H12.
Qed.

Lemma unchanged_except_insert m k n : unchanged_except [k] m (<[k := n]> m).
Proof.
  intros k' n' Hk' Hn'. rewrite lookup_insert_ne; [done|].
  intros ->. apply Hk'. apply list_elem_of_here.
Qed.

Lemma files_from_refl ks m : files_from ks m m.
Proof. intros k c md Hk. by right. Qed.

Lemma files_from_trans ks1 ks2 m1 m2 m3 :
  files_from ks1 m1 m2 → files_from ks2 m2 m3 → files_from (ks1 ++ ks2) m1 m3.
Proof.
  intros H12 H23 k c md Hk. destruct (H23 _ _ _ Hk) as [Hin|Hk2].
  - left. apply elem_of_app. by right.
  - destruct (H12 _ _ _ Hk2) as [Hin|Hk1]; [|by right]. left. apply elem_of_app. by left.
Qed.

Lemma files_from_insert m k n : files_from [k] m (<[k := n]> m).
Proof.
  intros k' c md Hk'. destruct (decide (k = k')) as [->|Hne].
  - left. apply list_elem_of_here.
  - right. by rewrite lookup_insert_ne in Hk'.
Qed.

Lemma files_from_weaken ks ks' m m' : ks ⊆ ks' → files_from ks m m' → files_from ks' m m'.
Proof. intros Hsub H k c md Hk. destruct (H _ _ _ Hk) as [Hin|?]; [left; by apply Hsub|by right]. Qed.

Lemma unchanged_except_weaken ks ks' m m' :
  ks ⊆ ks' → unchanged_except ks m m' → unchanged_except ks' m m'.
Proof. intros Hsub H k n Hk. apply H. intros Hin. apply Hk. by apply Hsub. Qed.

(** Each call, when it returns: no directory is lost, no entry is removed
    or changes its kind, and only the entry it names can change at all. *)

Lemma Path_mkdir_frame p w w' u :
  Path_mkdir p w = Ok (u, w') →
  extends w w' ∧ keeps_entries (fs w) (fs w') ∧ unchanged_except [] (fs w) (fs w').
Proof.
  intros (_ & X & _ & F)%Path_mkdir_inv. split; [done|]. split.
  - intros k n Hk. destruct (F k) as [E|[E _]]; [|congruence].
    exists n. split; [congruence|apply same_kind_refl].
  - intros k n _ Hk. destruct (F k) as [E|[E _]]; congruence.
Qed.

Lemma Path_touch_frame p w w' u :
  Path_touch p w = Ok (u, w') →
  extends w w' ∧ keeps_entries (fs w) (fs w') ∧ unchanged_except [] (fs w) (fs w').
Proof.
  unfold Path_touch. destruct (resolve w p) as [k|]; [|done].
  destruct (fs w !! k) as [n|] eqn:E; intros [= _ <-]; simpl.
  - split; [apply extends_tick|]. split; [done|apply unchanged_except_refl].
  - split; [|split].
    + split; [by repeat split|]. simpl. apply dir_le_insert_file. congruence.
    + apply keeps_entries_insert. congruence.
    + intros k' n' _ Hk'. rewrite lookup_insert_ne; [done|congruence].
Qed.

Lemma write_text_frame p c w w' u :
  write_text p c w = Ok (u, w') →
  ∃ k, resolve w p = Ok k ∧
       extends w w' ∧ keeps_entries (fs w) (fs w') ∧ unchanged_except [k] (fs w) (fs w').
Proof.
  unfold write_text. destruct (resolve w p) as [k|]; [|done].
  destruct (fs w !! k) as [[c0 md|md]|] eqn:E; intros [= _ <-]; simpl; exists k;
    (split; [done|]); (split; [|split]).
  - split; [by repeat split|]. simpl. apply dir_le_insert_file. congruence.
  - apply keeps_entries_insert. intros n0. rewrite E. by intros [= <-].
  - apply unchanged_except_insert.
  - split; [by repeat split|]. simpl. apply dir_le_insert_file. congruence.
  - apply keeps_entries_insert. congruence.
  - apply unchanged_except_insert.
Qed.

Lemma os_chmod_frame p mode w w' u :
  os_chmod p mode w = Ok (u, w') →
  ∃ k, resolve w p = Ok k ∧
       extends w w' ∧ keeps_entries (fs w) (fs w') ∧ unchanged_except [k] (fs w) (fs w').
Proof.
  unfold os_chmod. destruct (resolve w p) as [k|]; [|done].
  destruct (fs w !! k) as [[c0 md|md]|] eqn:E; intros [= _ <-]; simpl; exists k;
    (split; [done|]); (split; [|split]).
  - split; [by repeat split|]. simpl. apply dir_le_insert_file. congruence.
  - apply keeps_entries_insert. intros n0. rewrite E. by intros [= <-].
  - apply unchanged_except_insert.
  - split; [by repeat split|]. simpl. apply dir_le_insert_dir.
  - apply keeps_entries_insert. intros n0. rewrite E. by intros [= <-].
  - apply unchanged_except_insert.
Qed.

Lemma now_year_frame w w' y :
  now_year w = Ok (y, w') →
  extends w w' ∧ keeps_entries (fs w) (fs w') ∧ unchanged_except [] (fs w) (fs w').
Proof.
  intros (_ & _ & X & F)%now_year_inv. rewrite F.
  split; [done|]. split; [done|apply unchanged_except_refl].
Qed.

(** Each call, when it returns, makes or changes no regular file but the
    one it names. *)

Lemma Path_mkdir_files p w w' u :
  Path_mkdir p w = Ok (u, w') → files_from [] (fs w) (fs w').
Proof.
  intros (_ & _ & _ & F)%Path_mkdir_inv k c md Hk. right.
  destruct (F k) as [E|[_ E]]; congruence.
Qed.

Lemma Path_touch_files p w w' u :
  Path_touch p w = Ok (u, w') →
  ∃ k, resolve w p = Ok k ∧ files_from [k] (fs w) (fs w').
Proof.
  unfold Path_touch. destruct (resolve w p) as [k|]; [|done].
  destruct (fs w !! k) as [n|] eqn:E; intros [= _ <-]; simpl; exists k; (split; [done|]).
  - apply files_from_refl.
  - apply files_from_insert.
Qed.

Lemma write_text_files p c w w' u :
  write_text p c w = Ok (u, w') →
  ∃ k, resolve w p = Ok k ∧ files_from [k] (fs w) (fs w').
Proof.
  unfold write_text. destruct (resolve w p) as [k|]; [|done].
  destruct (fs w !! k) as [[c0 md|md]|] eqn:E; intros [= _ <-]; simpl; exists k;
    (split; [done|]); apply files_from_insert.
Qed.

Lemma os_chmod_files p mode w w' u :
  os_chmod p mode w = Ok (u, w') →
  ∃ k, resolve w p = Ok k ∧ files_from [k] (fs w) (fs w').
Proof.
  unfold os_chmod. destruct (resolve w p) as [k|]; [|done].
  destruct (fs w !! k) as [[c0 md|md]|] eqn:E; intros [= _ <-]; simpl; exists k;
    (split; [done|]); apply files_from_insert.
Qed.

(** The position that a call on the entry [x] of [d] resolved to, seen from a
    later world in which [d] is at [K]. *)
Lemma resolved_child w w' d K x k :
  resolve w (d </> x) = Ok k → extends w w' → dir_at w' d K → simple_name x →
  k = K ++ [x].
Proof.
  intros Hr X Hd Hx. pose proof (resolve_extends _ _ _ _ X Hr) as Hr'.
  rewrite (resolve_child _ _ K) in Hr' by done. congruence.
Qed.

End Frames.

Section RunFrames.

Implicit Types (m : gmap (list string) node) (w : world) (k K : list string) (p : Path).

Lemma touches_trans ks1 ks2 w1 w2 w3 :
  touches ks1 w1 w2 → touches ks2 w2 w3 → touches (ks1 ++ ks2) w1 w3.
Proof.
  intros (X1 & K1 & U1 & F1) (X2 & K2 & U2 & F2).
  split; [by etrans|]. split; [by etrans|].
  split; [by eapply unchanged_except_trans|by eapply files_from_trans].
Qed.

Lemma touches_weaken ks ks' w w' : ks ⊆ ks' → touches ks w w' → touches ks' w w'.
Proof.
  intros Hsub (X & Kp & U & F). split; [done|]. split; [done|].
  split; [by eapply unchanged_except_weaken|by eapply files_from_weaken].
Qed.

Lemma Path_mkdir_touches p w w' u : Path_mkdir p w = Ok (u, w') → touches [] w w'.
Proof.
  intros Hrun. destruct (Path_mkdir_frame _ _ _ _ Hrun) as (X & Kp & U).
  split; [done|]. split; [done|]. split; [done|]. by eapply Path_mkdir_files.
Qed.

Lemma Path_touch_touches p w w' u :
  Path_touch p w = Ok (u, w') → ∃ k, resolve w p = Ok k ∧ touches [k] w w'.
Proof.
  intros Hrun. destruct (Path_touch_frame _ _ _ _ Hrun) as (X & Kp & U).
  destruct (Path_touch_files _ _ _ _ Hrun) as (k & Hr & F). exists k. split; [done|].
  split; [done|]. split; [done|]. split; [|done].
  eapply unchanged_except_weaken; [|exact U]. intros k' Hk'. by apply elem_of_nil in Hk'.
Qed.

Lemma now_year_touches w w' y : now_year w = Ok (y, w') → touches [] w w'.
Proof.
  intros Hrun. destruct (now_year_frame _ _ _ Hrun) as (X & Kp & U).
  split; [done|]. split; [done|]. split; [done|].
  apply now_year_inv in Hrun as (_ & _ & _ & ->). apply files_from_refl.
Qed.

Lemma write_text_touches p c w w' u :
  write_text p c w = Ok (u, w') → ∃ k, resolve w p = Ok k ∧ touches [k] w w'.
Proof.
  intros Hrun. destruct (write_text_frame _ _ _ _ _ Hrun) as (k & Hr & X & Kp & U).
  destruct (write_text_files _ _ _ _ _ Hrun) as (k' & Hr' & F).
  assert (k' = k) as -> by congruence. exists k. split; [done|].
  split; [done|]. split; [done|]. by split.
Qed.

Lemma os_chmod_touches p mode w w' u :
  os_chmod p mode w = Ok (u, w') → ∃ k, resolve w p = Ok k ∧ touches [k] w w'.
Proof.
  intros Hrun. destruct (os_chmod_frame _ _ _ _ _ Hrun) as (k & Hr & X & Kp & U).
  destruct (os_chmod_files _ _ _ _ _ Hrun) as (k' & Hr' & F).
  assert (k' = k) as -> by congruence. exists k. split; [done|].
  split; [done|]. split; [done|]. by split.
Qed.

Lemma touches_extends ks w w' : touches ks w w' → extends w w'.
Proof. by intros [X _]. Qed.

End RunFrames.

(** The element is in the list that is written out. *)
Ltac list_in := repeat first [apply list_elem_of_here | apply list_elem_of_further].

(** One listed position is among the listed positions. *)
Ltac list_incl :=
  let k := fresh "k" in
  let Hk := fresh "Hk" in
  intros k Hk;
  repeat (apply elem_of_cons in Hk as [->|Hk]);
  [ list_in ..
  | by apply elem_of_nil in Hk ].

Section DataFrames.

Import Scaffold.

Implicit Types (w : world) (K : list string) (P : Path).

Lemma create_project_touches project_name base_path w w' u :
  create_project project_name base_path w = Ok (u, w') →
  ∃ K, dir_at w' (base_path </> project_name) K ∧ touches (data_touched K) w w'.
Proof.
  intros Hrun.
  destruct (create_project_inv _ _ _ _ _ Hrun) as (K & [HK _ _ _ _ _ _ _] & _).
  exists K. split; [done|].
  set (P := base_path </> project_name) in *.
  unfold create_project in Hrun. fold P in Hrun. unfold directories, for_each in Hrun.
  run_inv Hrun as wd Hdirs.
  run_inv Hdirs as w1 M1. run_inv Hdirs as w2 M2.
  run_inv Hdirs as w3 M3. run_inv Hdirs as w4 M4.
  apply ret_inv in Hdirs as [_ <-].
  run_inv Hrun as w5 T5. run_inv Hrun as w6 H6. run_inv Hrun as w7 H7.
  run_inv Hrun as w9 H9. run_inv Hrun as w10 H10. run_inv Hrun as w12 H12.
  run_inv Hrun as w13 H13.
  unfold create_license in H9. run_inv_val H9 as yr w8 C8.
  unfold create_run_bash in H12. run_inv H12 as w11 H11.
  unfold create_helpers in H6. unfold create_gitignore in H7.
  unfold create_readme in H10.
  apply Path_mkdir_touches in M1, M2, M3, M4.
  apply Path_touch_touches in T5 as (k5 & R5 & T5).
  apply now_year_touches in C8.
  apply write_text_touches in H6 as (k6 & R6 & H6), H7 as (k7 & R7 & H7),
    H9 as (k9 & R9 & H9), H10 as (k10 & R10 & H10), H11 as (k11 & R11 & H11),
    Hrun as (k14 & R14 & H14).
  apply os_chmod_touches in H12 as (k12 & R12 & H12), H13 as (k13 & R13 & H13).
  pose proof (touches_extends _ _ _ H14) as X14.
  pose proof (touches_extends _ _ _ H13) as X13.
  pose proof (touches_extends _ _ _ H12) as X12.
  pose proof (touches_extends _ _ _ H11) as X11.
  pose proof (touches_extends _ _ _ H10) as X10.
  pose proof (touches_extends _ _ _ H9) as X9.
  pose proof (touches_extends _ _ _ C8) as X8.
  pose proof (touches_extends _ _ _ H7) as X7.
  pose proof (touches_extends _ _ _ H6) as X6.
  pose proof (touches_extends _ _ _ T5) as X5.
  apply (resolved_child _ w' _ K) in R5; [|chain_extends|done|solve_simple].
  apply (resolved_child _ w' _ K) in R14; [|done|done|solve_simple].
  apply (resolved_child _ w' _ K) in R13; [|chain_extends|done|solve_simple].
  apply (resolved_child _ w' _ K) in R12; [|chain_extends|done|solve_simple].
  apply (resolved_child _ w' _ K) in R11; [|chain_extends|done|solve_simple].
  apply (resolved_child _ w' _ K) in R10; [|chain_extends|done|solve_simple].
  apply (resolved_child _ w' _ K) in R9; [|chain_extends|done|solve_simple].
  apply (resolved_child _ w' _ K) in R7; [|chain_extends|done|solve_simple].
  apply (resolved_child _ w' _ K) in R6; [|chain_extends|done|solve_simple].
  subst.
  pose proof (touches_trans _ _ _ _ _ M1
    (touches_trans _ _ _ _ _ M2
    (touches_trans _ _ _ _ _ M3
    (touches_trans _ _ _ _ _ M4
    (touches_trans _ _ _ _ _ T5
    (touches_trans _ _ _ _ _ H6
    (touches_trans _ _ _ _ _ H7
    (touches_trans _ _ _ _ _ C8
    (touches_trans _ _ _ _ _ H9
    (touches_trans _ _ _ _ _ H10
    (touches_trans _ _ _ _ _ H11
    (touches_trans _ _ _ _ _ H12
    (touches_trans _ _ _ _ _ H13 H14))))))))))))) as Hall.
  eapply touches_weaken; [|exact Hall].
  unfold data_touched, data_written. simpl. list_incl.
Qed.

End DataFrames.

Section PackageFrames.

Import ScaffoldPackage.

Implicit Types (w : world) (K : list string) (P : Path).

Lemma create_project_structure_touches project_name base_path w w' u :
  create_project_structure project_name base_path w = Ok (u, w') →
  ∃ K Ks, dir_at w' (base_path </> project_name) K ∧
          dir_at w' (base_path </> project_name </> "src" </> project_name) Ks ∧
          touches (package_written K Ks) w w'.
Proof.
  intros Hrun.
  destruct (create_project_structure_inv _ _ _ _ _ Hrun)
    as (K & Ks & [HK HKs HKt _ HKe _ _ _ _ _ _ _ _] & _).
  exists K, Ks. split; [done|]. split; [done|].
  set (P := base_path </> project_name) in *.
  unfold create_project_structure in Hrun. fold P in Hrun.
  unfold directories, for_each in Hrun.
  rewrite planned_src, planned_tests, planned_examples in Hrun.
  run_inv Hrun as wd Hdirs.
  run_inv Hdirs as w1 M1. run_inv Hdirs as w2 M2. run_inv Hdirs as w3 M3.
  apply ret_inv in Hdirs as [_ <-].
  run_inv Hrun as w4 H4. run_inv Hrun as w5 H5. run_inv Hrun as w6 H6.
  run_inv Hrun as w7 H7. run_inv Hrun as w8 H8. run_inv Hrun as w9 H9.
  run_inv Hrun as w11 H11.
  unfold create_license in H11. run_inv_val H11 as yr w10 C10.
  unfold create_init_file in H4. unfold create_base_file in H5.
  unfold create_test_file in H6. unfold create_example_file in H7.
  unfold create_pyproject_toml in H8. unfold create_readme in H9.
  unfold create_gitignore in Hrun.
  apply Path_mkdir_touches in M1, M2, M3. apply now_year_touches in C10.
  apply write_text_touches in H4 as (k4 & R4 & H4), H5 as (k5 & R5 & H5),
    H6 as (k6 & R6 & H6), H7 as (k7 & R7 & H7), H8 as (k8 & R8 & H8),
    H9 as (k9 & R9 & H9), H11 as (k11 & R11 & H11), Hrun as (k12 & R12 & H12).
  pose proof (touches_extends _ _ _ H12) as X12.
  pose proof (touches_extends _ _ _ H11) as X11.
  pose proof (touches_extends _ _ _ C10) as X10.
  pose proof (touches_extends _ _ _ H9) as X9.
  pose proof (touches_extends _ _ _ H8) as X8.
  pose proof (touches_extends _ _ _ H7) as X7.
  pose proof (touches_extends _ _ _ H6) as X6.
  pose proof (touches_extends _ _ _ H5) as X5.
  pose proof (touches_extends _ _ _ H4) as X4.
  apply (resolved_child _ w' _ K) in R12; [|done|done|solve_simple].
  apply (resolved_child _ w' _ K) in R11; [|chain_extends|done|solve_simple].
  apply (resolved_child _ w' _ K) in R9; [|chain_extends|done|solve_simple].
  apply (resolved_child _ w' _ K) in R8; [|chain_extends|done|solve_simple].
  apply (resolved_child _ w' _ (K ++ ["examples"])) in R7; [|chain_extends|done|solve_simple].
  apply (resolved_child _ w' _ (K ++ ["tests"])) in R6; [|chain_extends|done|solve_simple].
  apply (resolved_child _ w' _ Ks) in R5; [|chain_extends|done|solve_simple].
  apply (resolved_child _ w' _ Ks) in R4; [|chain_extends|done|solve_simple].
  subst.
  pose proof (touches_trans _ _ _ _ _ M1
    (touches_trans _ _ _ _ _ M2
    (touches_trans _ _ _ _ _ M3
    (touches_trans _ _ _ _ _ H4
    (touches_trans _ _ _ _ _ H5
    (touches_trans _ _ _ _ _ H6
    (touches_trans _ _ _ _ _ H7
    (touches_trans _ _ _ _ _ H8
    (touches_trans _ _ _ _ _ H9
    (touches_trans _ _ _ _ _ C10
    (touches_trans _ _ _ _ _ H11 H12))))))))))) as Hall.
  eapply touches_weaken; [|exact Hall].
  unfold package_written. simpl. list_incl.
Qed.

End PackageFrames.

(** * More on the data-project generator *)

Section DataProjectMore.

Import Scaffold.

Implicit Types (m : gmap (list string) node) (w : world) (K : list string) (P : Path)
  (um : N).









End DataProjectMore.

Section DataProjectModes.

Import Scaffold.

Implicit Types (m : gmap (list string) node) (w : world) (K : list string) (P : Path)
  (um : N).







End DataProjectModes.

Section DataProjectAgain.

Import Scaffold.

Implicit Types (m : gmap (list string) node) (w : world) (K : list string) (P : Path)
  (um : N).




End DataProjectAgain.

(** * When the generators raise *)

Section Failures.

Implicit Types (m : gmap (list string) node) (w : world) (k K : list string)
  (d p P : Path) (x : string) (xs : list string).






End Failures.

Section DataFailures.

Import Scaffold.

Implicit Types (m : gmap (list string) node) (w : world) (k K : list string)
  (d p P : Path) (x : string) (xs : list string).






End DataFailures.

(** * Projects under directories that are still to be made *)

Section DataProjectParents.

Import Scaffold.

Implicit Types (m : gmap (list string) node) (w : world) (k K Kd : list string)
  (d p P : Path) (x : string) (xs : list string) (um : N).






End DataProjectParents.

(** * Project names that are absolute paths *)

Section AbsoluteNames.

Lemma truediv_anchored p q name :
  path_anchor (parse_path name) ≠ Relative → p </> name = q </> name.
Proof. intros Ha. unfold truediv, joinpath. by destruct (path_anchor (parse_path name)). Qed.

Lemma create_project_anchored name base_path base_path' :
  path_anchor (parse_path name) ≠ Relative →
  Scaffold.create_project name base_path = Scaffold.create_project name base_path'.
Proof.
  intros Ha. unfold Scaffold.create_project.
  by rewrite (truediv_anchored base_path base_path').
Qed.

Lemma create_project_structure_anchored name base_path base_path' :
  path_anchor (parse_path name) ≠ Relative →
  ScaffoldPackage.create_project_structure name base_path
  = ScaffoldPackage.create_project_structure name base_path'.
Proof.
  intros Ha. unfold ScaffoldPackage.create_project_structure.
  by rewrite (truediv_anchored base_path base_path').
Qed.

End AbsoluteNames.

(** * More on the package generator *)

Section PackageMore.

Import ScaffoldPackage.

Implicit Types (m : gmap (list string) node) (w : world) (k K Ks Kb : list string)
  (d p P : Path) (x : string) (xs : list string) (um : N).







End PackageMore.

(** * The command-line entry points *)

Section Main.

Implicit Types (m : gmap (list string) node) (w : world) (k K : list string)
  (d p P : Path) (x : string) (xs : list string).



Lemma args_path_default name : args_path (MkArguments name None) = ".".
Proof. done. Qed.


Lemma print_twice out s1 s2 :
  print s2 (print s1 out) = out +:+ s1 +:+ nl +:+ s2 +:+ nl.
Proof. unfold print. by rewrite !append_assoc. Qed.

End Main.

(** * The directories that a run makes *)

Section Directories.

Implicit Types (m : gmap (list string) node) (w : world) (k K Kb : list string)
  (d p P : Path) (x : string) (xs : list string) (um : N).

Lemma dirs_from_refl ks m : dirs_from ks m m.
Proof. intros k md Hk. right. eauto. Qed.









End Directories.

Section DataProjectTrees.

Import Scaffold.

Implicit Types (m : gmap (list string) node) (w : world) (k K Kb : list string)
  (d p P : Path) (x : string) (xs : list string) (um : N).



End DataProjectTrees.

Section PackageProjectTrees.

Import ScaffoldPackage.

Implicit Types (m : gmap (list string) node) (w : world) (k K Ks Kb : list string)
  (d p P : Path) (x : string) (xs : list string) (um : N).





End PackageProjectTrees.

(** * The placeholder, and paths below the project path *)

Section Placeholder.

Import Scaffold.

Implicit Types (m : gmap (list string) node) (w : world) (k K Kb : list string)
  (d p P : Path) (x : string) (xs : list string) (um : N).



End Placeholder.

Section BelowTheProject.

Lemma is_ancestor_or_self_trans p q r :
  is_ancestor_or_self p q → is_ancestor_or_self q r → is_ancestor_or_self p r.
Proof. intros [Ha Hp] [Hb Hq]. split; [congruence|by etrans]. Qed.


End BelowTheProject.

Section Unchanged.

Implicit Types (w : world) (K : list string).

(** A data-project run changes no entry that was there but the five files
    it writes: [config.py] too is left as it was. *)
Lemma create_project_unchanged project_name base_path w w' u :
  Scaffold.create_project project_name base_path w = Ok (u, w') →
  ∃ K, dir_at w' (base_path </> project_name) K ∧
       unchanged_except (data_written K) (fs w) (fs w').
Proof.
  intros Hrun.
  destruct (create_project_touches _ _ _ _ _ Hrun) as (K & HK & _ & _ & Hsame & _).
  destruct (create_project_inv _ _ _ _ _ Hrun) as (K' & Hat & _ & _ & _ & _ & Hcfg).
  pose proof (dir_at_inj _ _ _ _ (dp_root _ _ _ _ Hat) HK) as ->.
  exists K. split; [done|]. intros k n Hk Hn.
  destruct (decide (k = K ++ ["config.py"])) as [->|Hne]; [by apply Hcfg|].
  apply Hsame; [|done]. unfold data_touched. intros [Heq|Hin]%elem_of_cons; done.
Qed.

End Unchanged.

(** * The properties of the specification *)

(** C1. After every data-project generation the file [.gitignore] of the
    project holds the second, broader pattern: its lines ignore everything
    ([*]) and except [README.md], [.gitignore], every [.py] and every [.bash]
    file, and no other; the first pattern, which excepts [.gitignore],
    [README.md] and [LICENSE], is a different text; in the call sequence the
    first pattern is written earlier and the second pattern is written by the
    last call. *)
Theorem data_project_gitignore_final project_name base_path w w' u :
  Scaffold.create_project project_name base_path w = Ok (u, w') →
  let gitignore := base_path </> project_name </> ".gitignore" in
  read_file w' gitignore = Ok Scaffold.final_gitignore_content ∧
  lines Scaffold.final_gitignore_content
    = [ "# ignore all"; "*"; EmptyString; "# except for these files";
        "!README.md"; "!.gitignore"; "!*.py"; "!*.bash" ] ∧
  exceptions Scaffold.final_gitignore_content
    = [ "!README.md"; "!.gitignore"; "!*.py"; "!*.bash" ] ∧
  exceptions Scaffold.gitignore_content = [ "!.gitignore"; "!README.md"; "!LICENSE" ] ∧
  Scaffold.final_gitignore_content ≠ Scaffold.gitignore_content ∧
  ∃ before between,
    log w' = log w ++ before ++ [EWrite gitignore Scaffold.gitignore_content]
                   ++ between ++ [EWrite gitignore Scaffold.final_gitignore_content].
Proof.
  intros Hrun gitignore.
  apply create_project_inv in Hrun as (K & Hat & Hlog & _).
  destruct Hat as [HP _ _ _ [md Hgi] _ _ _].
  split; [by eapply read_file_child|].
  split; [reflexivity|]. split; [reflexivity|]. split; [reflexivity|]. split; [done|].
  set (trace := data_trace (base_path </> project_name) (calendar w (7 + ticks w)%nat)) in *.
  exists (take 6 trace), (take 6 (drop 7 trace)).
  rewrite Hlog. reflexivity.
Qed.

Lemma data_project_gitignore_final_witness :
  read_file (world_after (Scaffold.create_project "demo" (parse_path "/tmp")) tmp_world)
            (parse_path "/tmp" </> "demo" </> ".gitignore")
  = Ok Scaffold.final_gitignore_content.
Proof.
  refine (proj1 (data_project_gitignore_final "demo" (parse_path "/tmp") tmp_world _ tt _)).
  vm_compute. reflexivity.
Defined.

(** C2. When a data-project generation has returned and the clock shows, at
    the licence of a second run, the year it showed at the licence of the
    first, a second run with the same name and base path returns as well and
    leaves the file tree exactly as the first run left it: every directory is
    found in place and every file is written with the content it has. *)
Theorem data_project_rerun_is_identity project_name base_path w w1 u :
  Scaffold.create_project project_name base_path w = Ok (u, w1) →
  calendar w1 (7 + ticks w1)%nat = calendar w (7 + ticks w)%nat →
  ∃ w2, Scaffold.create_project project_name base_path w1 = Ok (tt, w2) ∧
        fs w2 = fs w1.
Proof.
  intros Hrun Hyear.
  apply create_project_inv in Hrun as (K & Hat & _).
  destruct (create_project_ok project_name base_path w1 K) as (w2 & Hrun2 & Hfs & _).
  - apply Hat.
  - by eapply data_project_at_ready.
  - exists w2. split; [done|]. rewrite Hfs, Hyear. by eapply data_tree_fixed.
Qed.

Lemma data_project_rerun_is_identity_witness :
  ∃ w2,
    Scaffold.create_project "demo" (parse_path "/tmp")
      (world_after (Scaffold.create_project "demo" (parse_path "/tmp")) tmp_world)
      = Ok (tt, w2) ∧
    fs w2 = fs (world_after (Scaffold.create_project "demo" (parse_path "/tmp")) tmp_world).
Proof.
  apply (data_project_rerun_is_identity "demo" (parse_path "/tmp") tmp_world _ tt).
  - vm_compute. reflexivity.
  - reflexivity.
Defined.




(** C4, as stated, fails: in the package generated for [mypkg] under [/tmp]
    neither the unit-test file nor the example file is empty. *)
Lemma package_test_and_example_not_empty :
  ScaffoldPackage.create_project_structure "mypkg" (parse_path "/tmp") tmp_world
    = Ok (tt, world_after (ScaffoldPackage.create_project_structure "mypkg" (parse_path "/tmp"))
                          tmp_world) ∧
  read_file (world_after (ScaffoldPackage.create_project_structure "mypkg" (parse_path "/tmp"))
                         tmp_world)
            (parse_path "/tmp" </> "mypkg" </> "tests" </> "test_module1.py")
    ≠ Ok EmptyString ∧
  read_file (world_after (ScaffoldPackage.create_project_structure "mypkg" (parse_path "/tmp"))
                         tmp_world)
            (parse_path "/tmp" </> "mypkg" </> "examples" </> "basic_usage.py")
    ≠ Ok EmptyString.
Proof. vm_compute. split; [reflexivity|]. split; discriminate. Qed.

(** C4, amended. After every package-project generation the unit-test file
    holds one line feed and the example file holds an empty line followed by
    the comment line [# Add example usage here]: neither holds code. *)
Theorem package_test_and_example_content project_name base_path w w' u :
  ScaffoldPackage.create_project_structure project_name base_path w = Ok (u, w') →
  let project_path := base_path </> project_name in
  read_file w' (project_path </> "tests" </> "test_module1.py") = Ok nl ∧
  read_file w' (project_path </> "examples" </> "basic_usage.py")
    = Ok (nl +:+ "# Add example usage here" +:+ nl).
Proof.
  intros Hrun project_path.
  apply create_project_structure_inv in Hrun as (K & Ks & Hat & _).
  destruct Hat as [_ _ HT _ HE _ _ [mdt Htest] [mde Hex] _ _ _ _].
  split.
  - by eapply (read_file_child _ _ (K ++ ["tests"])).
  - by eapply (read_file_child _ _ (K ++ ["examples"])).
Qed.

Lemma package_test_and_example_content_witness :
  read_file (world_after (ScaffoldPackage.create_project_structure "mypkg" (parse_path "/tmp"))
                         tmp_world)
            (parse_path "/tmp" </> "mypkg" </> "tests" </> "test_module1.py")
  = Ok nl.
Proof.
  refine (proj1 (package_test_and_example_content "mypkg" (parse_path "/tmp") tmp_world _ tt _)).
  vm_compute. reflexivity.
Defined.







(** C7. After every generation of either kind the file [LICENSE] of the
    project holds the licence text whose copyright line carries the calendar
    year that the clock showed at the instant it was read, and the clock is
    read by the call just before the licence is written. *)
Theorem license_year_is_current_year :
  (∀ project_name base_path w w' u,
     Scaffold.create_project project_name base_path w = Ok (u, w') →
     ∃ year before after,
       year = calendar w (ticks w + length before)%nat ∧
       log w' = log w ++ before
                  ++ [EClock year;
                      EWrite (base_path </> project_name </> "LICENSE")
                             (Scaffold.license_content year)] ++ after ∧
       read_file w' (base_path </> project_name </> "LICENSE")
         = Ok (Scaffold.license_content year) ∧
       contains (Scaffold.license_content year)
                (nl +:+ "Copyright (c) " +:+ pretty year +:+ " Jeremy" +:+ nl)) ∧
  (∀ project_name base_path w w' u,
     ScaffoldPackage.create_project_structure project_name base_path w = Ok (u, w') →
     ∃ year before after,
       year = calendar w (ticks w + length before)%nat ∧
       log w' = log w ++ before
                  ++ [EClock year;
                      EWrite (base_path </> project_name </> "LICENSE")
                             (ScaffoldPackage.license_content year)] ++ after ∧
       read_file w' (base_path </> project_name </> "LICENSE")
         = Ok (ScaffoldPackage.license_content year) ∧
       contains (ScaffoldPackage.license_content year)
                (nl +:+ "Copyright (c) " +:+ pretty year +:+ " Jeremy" +:+ nl)).
Proof.
  split.
  - intros project_name base_path w w' u Hrun.
    apply create_project_inv in Hrun as (K & Hat & Hlog & _).
    destruct Hat as [HP _ _ _ _ [md Hlic] _ _].
    set (P := base_path </> project_name) in *.
    set (year := calendar w (7 + ticks w)%nat) in *.
    exists year, (take 7 (data_trace P year)), (drop 9 (data_trace P year)).
    split; [|split; [|split]].
    + unfold year. f_equal. simpl. lia.
    + rewrite Hlog. reflexivity.
    + by eapply read_file_child.
    + unfold Scaffold.license_content, unlines. do 2 apply contains_app_r.
      eexists EmptyString, _. rewrite !append_assoc. reflexivity.
  - intros project_name base_path w w' u Hrun.
    apply create_project_structure_inv in Hrun as (K & Ks & Hat & Hlog & _).
    destruct Hat as [HP _ _ _ _ _ _ _ _ _ _ [md Hlic] _].
    set (P := base_path </> project_name) in *.
    set (year := calendar w (9 + ticks w)%nat) in *.
    exists year, (take 9 (package_trace P project_name year)),
      (drop 11 (package_trace P project_name year)).
    split; [|split; [|split]].
    + unfold year. f_equal. simpl. lia.
    + rewrite Hlog. reflexivity.
    + by eapply read_file_child.
    + unfold ScaffoldPackage.license_content, unlines. do 2 apply contains_app_r.
      eexists EmptyString, _. rewrite !append_assoc. reflexivity.
Qed.

Lemma license_year_is_current_year_witness :
  read_file (world_after (Scaffold.create_project "demo" (parse_path "/tmp")) tmp_world)
            (parse_path "/tmp" </> "demo" </> "LICENSE")
    = Ok (Scaffold.license_content 2026) ∧
  read_file (world_after (ScaffoldPackage.create_project_structure "mypkg" (parse_path "/tmp"))
                         tmp_world)
            (parse_path "/tmp" </> "mypkg" </> "LICENSE")
    = Ok (ScaffoldPackage.license_content 2026).
Proof.
  destruct license_year_is_current_year as [Hdata Hpackage]. split.
  - destruct (Hdata "demo" (parse_path "/tmp") tmp_world
                (world_after (Scaffold.create_project "demo" (parse_path "/tmp")) tmp_world) tt)
      as (year & before & after & -> & _ & Hread & _); [vm_compute; reflexivity|].
    exact Hread.
  - destruct (Hpackage "mypkg" (parse_path "/tmp") tmp_world
                (world_after (ScaffoldPackage.create_project_structure "mypkg" (parse_path "/tmp"))
                             tmp_world) tt)
      as (year & before & after & -> & _ & Hread & _); [vm_compute; reflexivity|].
    exact Hread.
Defined.

(** C8. After every package-project generation for the package [n] the file
    [src/<n>/__init__.py] holds the initializer text, which contains the line
    [__version__ = "0.1.0"] and the author line [__author__ = "Jeremy"]. *)
Theorem package_init_version_and_author project_name base_path w w' u :
  ScaffoldPackage.create_project_structure project_name base_path w = Ok (u, w') →
  let init := base_path </> project_name </> "src" </> project_name </> "__init__.py" in
  read_file w' init = Ok (ScaffoldPackage.init_content project_name) ∧
  contains (ScaffoldPackage.init_content project_name)
           (nl +:+ "__version__ = " +:+ dq +:+ "0.1.0" +:+ dq +:+ nl) ∧
  contains (ScaffoldPackage.init_content project_name)
           (nl +:+ "__author__ = " +:+ dq +:+ "Jeremy" +:+ dq +:+ nl).
Proof.
  intros Hrun init.
  apply create_project_structure_inv in Hrun as (K & Ks & Hat & _).
  destruct Hat as [_ HS _ _ _ [md Hinit] _ _ _ _ _ _ _].
  split; [by eapply read_file_child|].
  unfold ScaffoldPackage.init_content, unlines. split.
  - do 7 apply contains_app_r.
    eexists EmptyString, _. rewrite !append_assoc. reflexivity.
  - do 9 apply contains_app_r.
    eexists EmptyString, _. rewrite !append_assoc. reflexivity.
Qed.

Lemma package_init_version_and_author_witness :
  read_file (world_after (ScaffoldPackage.create_project_structure "mypkg" (parse_path "/tmp"))
                         tmp_world)
            (parse_path "/tmp" </> "mypkg" </> "src" </> "mypkg" </> "__init__.py")
  = Ok (ScaffoldPackage.init_content "mypkg").
Proof.
  refine (proj1 (package_init_version_and_author "mypkg" (parse_path "/tmp") tmp_world _ tt _)).
  vm_compute. reflexivity.
Defined.

(** C9. After every data-project generation [run.bash] has the permission
    bits [0o755], so the owner (and group and others) may execute it; the only
    call after the last [chmod] writes [.gitignore], not [run.bash]. *)
Theorem data_project_run_bash_executable project_name base_path w w' u :
  Scaffold.create_project project_name base_path w = Ok (u, w') →
  let project_path := base_path </> project_name in
  stat_mode w' (project_path </> "run.bash") = Ok (octal 7 5 5) ∧
  N.testbit (octal 7 5 5) 6 = true ∧
  N.testbit (octal 7 5 5) 3 = true ∧
  N.testbit (octal 7 5 5) 0 = true ∧
  ∃ before,
    log w' = log w ++ before
               ++ [EChmod (project_path </> "run.bash") (octal 7 5 5);
                   EWrite (project_path </> ".gitignore") Scaffold.final_gitignore_content].
Proof.
  intros Hrun project_path.
  apply create_project_inv in Hrun as (K & Hat & Hlog & _).
  destruct Hat as [HP _ _ _ _ _ _ Hrb].
  split; [by eapply stat_mode_child|]. do 3 (split; [done|]).
  set (trace := data_trace (base_path </> project_name) (calendar w (7 + ticks w)%nat)) in *.
  exists (take 12 trace). rewrite Hlog. reflexivity.
Qed.

Lemma data_project_run_bash_executable_witness :
  stat_mode (world_after (Scaffold.create_project "demo" (parse_path "/tmp")) tmp_world)
            (parse_path "/tmp" </> "demo" </> "run.bash")
  = Ok (octal 7 5 5).
Proof.
  refine (proj1 (data_project_run_bash_executable "demo" (parse_path "/tmp") tmp_world _ tt _)).
  vm_compute. reflexivity.
Defined.

(** C10. Neither generator rejects the empty project name: the project path
    [base_path / ""] is [base_path] itself, and in an existing directory
    [base_path] where nothing is in the way both generators return, having
    made their directories and files directly inside [base_path]. *)
Theorem empty_project_name_is_accepted base_path :
  base_path </> EmptyString = base_path ∧
  (∀ w K,
     dir_at w base_path K → data_ready (fs w) K →
     ∃ w', Scaffold.create_project EmptyString base_path w = Ok (tt, w') ∧
           fs w' = data_tree (umask w) K (calendar w (7 + ticks w)%nat) (fs w) ∧
           (∀ x, x ∈ Scaffold.directories → is_dir w' (base_path </> x) = true) ∧
           read_file w' (base_path </> "run.bash") = Ok Scaffold.run_bash_content) ∧
  (∀ w K,
     dir_at w base_path K → package_ready (fs w) K →
     ∃ w', ScaffoldPackage.create_project_structure EmptyString base_path w = Ok (tt, w') ∧
           fs w' = package_tree (umask w) K (calendar w (9 + ticks w)%nat) (fs w) ∧
           is_dir w' (base_path </> "src") = true ∧
           is_dir w' (base_path </> "tests" </> "test_data") = true ∧
           is_dir w' (base_path </> "examples") = true ∧
           read_file w' (base_path </> "src" </> "__init__.py")
             = Ok (ScaffoldPackage.init_content EmptyString)).
Proof.
  split; [apply truediv_empty|]. split.
  - intros w K HP Hready.
    destruct (create_project_ok EmptyString base_path w K) as (w' & Hrun & Hfs & _);
      [by rewrite truediv_empty|done|].
    exists w'. split; [done|]. split; [done|].
    apply create_project_inv in Hrun as (K' & Hat & _).
    rewrite truediv_empty in Hat. destruct Hat as [HP' Hdirs _ _ _ _ _ Hrb]. split.
    + intros x Hx. unfold Scaffold.directories in Hx.
      repeat (apply elem_of_cons in Hx as [->|Hx]); [| | | |by apply elem_of_nil in Hx];
        (eapply is_dir_child_of; [exact HP'|solve_simple|]); apply Hdirs;
        unfold Scaffold.directories; set_solver.
    + eapply read_file_child; [exact HP'|solve_simple|exact Hrb].
  - intros w K HP Hready.
    destruct (create_project_structure_empty_name_ok base_path w K) as (w' & Hrun & Hfs & _);
      [done..|].
    exists w'. split; [done|]. split; [done|].
    apply create_project_structure_inv in Hrun as (K' & Ks & Hat & _).
    rewrite truediv_empty in Hat. destruct Hat as [_ HS _ HTD HE [md Hinit] _ _ _ _ _ _ _].
    rewrite truediv_empty in HS.
    split; [apply is_dir_dir_at; eauto|]. split; [apply is_dir_dir_at; eauto|].
    split; [apply is_dir_dir_at; eauto|].
    eapply read_file_child; [exact HS|solve_simple|exact Hinit].
Qed.

Lemma empty_project_name_is_accepted_witness :
  (∃ w', Scaffold.create_project EmptyString (parse_path "/tmp") tmp_world = Ok (tt, w')) ∧
  (∃ w', ScaffoldPackage.create_project_structure EmptyString (parse_path "/tmp") tmp_world
         = Ok (tt, w')).
Proof.
  assert (dir_at tmp_world (parse_path "/tmp") ["tmp"]) as Htmp.
  { split; [reflexivity|]. exists (octal 7 7 7). reflexivity. }
  destruct (empty_project_name_is_accepted (parse_path "/tmp")) as (_ & Hdata & Hpackage).
  split.
  - destruct (Hdata tmp_world ["tmp"] Htmp) as (w' & Hrun & _); [|by exists w'].
    split.
    + intros x Hx c md. unfold Scaffold.directories in Hx.
      repeat (apply elem_of_cons in Hx as [->|Hx]); [..|by apply elem_of_nil in Hx];
        vm_compute; discriminate.
    + intros x Hx md.
      repeat (apply elem_of_cons in Hx as [->|Hx]); [..|by apply elem_of_nil in Hx];
        vm_compute; discriminate.
  - destruct (Hpackage tmp_world ["tmp"] Htmp) as (w' & Hrun & _); [|by exists w'].
    split.
    + intros k Hk c md.
      repeat (apply elem_of_cons in Hk as [->|Hk]); [..|by apply elem_of_nil in Hk];
        vm_compute; discriminate.
    + intros k Hk md.
      repeat (apply elem_of_cons in Hk as [->|Hk]); [..|by apply elem_of_nil in Hk];
        vm_compute; discriminate.
Defined.

(** * Further properties of the generators *)













(** X7. A data-project run that returns removes nothing: every entry of the
    tree is still there afterwards, a regular file as a regular file and a
    directory as a directory. *)
Theorem data_project_keeps_entries project_name base_path w w' u :
  Scaffold.create_project project_name base_path w = Ok (u, w') →
  keeps_entries (fs w) (fs w').
Proof.
  intros Hrun. destruct (create_project_touches _ _ _ _ _ Hrun) as (K & _ & _ & Hkeep & _).
  exact Hkeep.
Qed.

Lemma data_project_keeps_entries_witness :
  keeps_entries (fs configured_world)
    (fs (world_after (Scaffold.create_project "demo" (parse_path "/tmp")) configured_world)).
Proof.
  apply (data_project_keeps_entries "demo" (parse_path "/tmp") configured_world _ tt).
  vm_compute. reflexivity.
Defined.

(** X8. A data-project run that returns changes no entry that was there
    but the five files it writes: outside [helpers.py], [.gitignore],
    [LICENSE], [README.md] and [run.bash] of the project directory every
    entry keeps its content and its permission bits. *)
Theorem data_project_changes_only_written_files project_name base_path w w' u :
  Scaffold.create_project project_name base_path w = Ok (u, w') →
  ∃ K, dir_at w' (base_path </> project_name) K ∧
       unchanged_except (data_written K) (fs w) (fs w').
Proof. apply create_project_unchanged. Qed.

Lemma data_project_changes_only_written_files_witness :
  ∃ K, dir_at (world_after (Scaffold.create_project "demo" (parse_path "/tmp"))
                           configured_world)
              (parse_path "/tmp" </> "demo") K ∧
       unchanged_except (data_written K) (fs configured_world)
         (fs (world_after (Scaffold.create_project "demo" (parse_path "/tmp"))
                          configured_world)).
Proof.
  apply (data_project_changes_only_written_files "demo" (parse_path "/tmp")
           configured_world _ tt).
  vm_compute. reflexivity.
Defined.





(** X11. A data-project run that returns has made exactly these fourteen
    calls in this order: four [mkdir], the [touch] of [config.py], the writes
    of [helpers.py] and [.gitignore], the reading of the clock, the writes of
    [LICENSE], [README.md] and [run.bash], two [chmod] of [run.bash] and the
    second write of [.gitignore]. *)
Theorem data_project_call_sequence project_name base_path w w' u :
  Scaffold.create_project project_name base_path w = Ok (u, w') →
  log w' = log w ++ data_trace (base_path </> project_name) (calendar w (7 + ticks w)%nat).
Proof.
  intros Hrun. by destruct (create_project_inv _ _ _ _ _ Hrun) as (K & _ & Hlog & _).
Qed.

Lemma data_project_call_sequence_witness :
  log (world_after (Scaffold.create_project "demo" (parse_path "/tmp")) tmp_world)
  = log tmp_world ++ data_trace (parse_path "/tmp" </> "demo") 2026.
Proof.
  apply (data_project_call_sequence "demo" (parse_path "/tmp") tmp_world _ tt).
  vm_compute. reflexivity.
Defined.

(** X12. A project name that is an absolute path replaces the base path:
    both generators then do the same whatever the base path is. *)
Theorem absolute_project_name_ignores_base_path name base_path base_path' :
  path_anchor (parse_path name) ≠ Relative →
  Scaffold.create_project name base_path = Scaffold.create_project name base_path' ∧
  ScaffoldPackage.create_project_structure name base_path
  = ScaffoldPackage.create_project_structure name base_path'.
Proof.
  intros Ha. split.
  - by apply create_project_anchored.
  - by apply create_project_structure_anchored.
Qed.

Lemma absolute_project_name_ignores_base_path_witness :
  Scaffold.create_project "/tmp/demo" (parse_path "/home/jeremy")
  = Scaffold.create_project "/tmp/demo" (parse_path ".") ∧
  ScaffoldPackage.create_project_structure "/tmp/demo" (parse_path "/home/jeremy")
  = ScaffoldPackage.create_project_structure "/tmp/demo" (parse_path ".").
Proof.
  apply (absolute_project_name_ignores_base_path "/tmp/demo").
  discriminate.
Defined.



(** X14. A package run that returns removes nothing: every entry of the
    tree is still there afterwards, a regular file as a regular file and a
    directory as a directory. *)
Theorem package_project_keeps_entries project_name base_path w w' u :
  ScaffoldPackage.create_project_structure project_name base_path w = Ok (u, w') →
  keeps_entries (fs w) (fs w').
Proof.
  intros Hrun.
  destruct (create_project_structure_touches _ _ _ _ _ Hrun) as (K & Ks & _ & _ & _ & Hkeep & _).
  exact Hkeep.
Qed.

Lemma package_project_keeps_entries_witness :
  keeps_entries (fs tmp_world)
    (fs (world_after (ScaffoldPackage.create_project_structure "mypkg" (parse_path "/tmp"))
                     tmp_world)).
Proof.
  apply (package_project_keeps_entries "mypkg" (parse_path "/tmp") tmp_world _ tt).
  vm_compute. reflexivity.
Defined.

(** X15. A package run that returns changes no entry that was there but
    the eight files it writes: the two in the package directory, the test
    file, the example file, [pyproject.toml], [README.md], [LICENSE] and
    [.gitignore]. *)
Theorem package_project_changes_only_written_files project_name base_path w w' u :
  ScaffoldPackage.create_project_structure project_name base_path w = Ok (u, w') →
  ∃ K Ks, dir_at w' (base_path </> project_name) K ∧
          dir_at w' (base_path </> project_name </> "src" </> project_name) Ks ∧
          unchanged_except (package_written K Ks) (fs w) (fs w').
Proof.
  intros Hrun.
  destruct (create_project_structure_touches _ _ _ _ _ Hrun)
    as (K & Ks & HK & HKs & _ & _ & Hsame & _).
  by exists K, Ks.
Qed.

Lemma package_project_changes_only_written_files_witness :
  ∃ K Ks,
    dir_at (world_after (ScaffoldPackage.create_project_structure "mypkg" (parse_path "/tmp"))
                        tmp_world)
           (parse_path "/tmp" </> "mypkg") K ∧
    dir_at (world_after (ScaffoldPackage.create_project_structure "mypkg" (parse_path "/tmp"))
                        tmp_world)
           (parse_path "/tmp" </> "mypkg" </> "src" </> "mypkg") Ks ∧
    unchanged_except (package_written K Ks) (fs tmp_world)
      (fs (world_after (ScaffoldPackage.create_project_structure "mypkg" (parse_path "/tmp"))
                       tmp_world)).
Proof.
  apply (package_project_changes_only_written_files "mypkg" (parse_path "/tmp") tmp_world _ tt).
  vm_compute. reflexivity.
Defined.





(** X18. A package run that returns has made exactly these twelve calls in
    this order: three [mkdir], the writes of [__init__.py], [base.py], the
    test file, the example file, [pyproject.toml] and [README.md], the
    reading of the clock, and the writes of [LICENSE] and [.gitignore]. *)
Theorem package_project_call_sequence project_name base_path w w' u :
  ScaffoldPackage.create_project_structure project_name base_path w = Ok (u, w') →
  log w' = log w ++ package_trace (base_path </> project_name) project_name
                      (calendar w (9 + ticks w)%nat).
Proof.
  intros Hrun.
  by destruct (create_project_structure_inv _ _ _ _ _ Hrun) as (K & Ks & _ & Hlog & _).
Qed.

Lemma package_project_call_sequence_witness :
  log (world_after (ScaffoldPackage.create_project_structure "mypkg" (parse_path "/tmp"))
                   tmp_world)
  = log tmp_world ++ package_trace (parse_path "/tmp" </> "mypkg") "mypkg" 2026.
Proof.
  apply (package_project_call_sequence "mypkg" (parse_path "/tmp") tmp_world _ tt).
  vm_compute. reflexivity.
Defined.

(** X19. After a package run for the package [n], [pyproject.toml] names
    the project [n] in the version [0.1.0], and [README.md] starts with the
    title [# n] and shows the import [from n.base import BaseClass]. *)
Theorem package_name_in_pyproject_and_readme project_name base_path w w' u :
  ScaffoldPackage.create_project_structure project_name base_path w = Ok (u, w') →
  let P := base_path </> project_name in
  read_file w' (P </> "pyproject.toml") = Ok (ScaffoldPackage.pyproject_content project_name) ∧
  contains (ScaffoldPackage.pyproject_content project_name)
           (nl +:+ "name = " +:+ dq +:+ project_name +:+ dq +:+ nl
               +:+ "version = " +:+ dq +:+ "0.1.0" +:+ dq +:+ nl) ∧
  read_file w' (P </> "README.md") = Ok (ScaffoldPackage.readme_content project_name) ∧
  (∃ rest, ScaffoldPackage.readme_content project_name
           = "# " +:+ project_name +:+ nl +:+ rest) ∧
  contains (ScaffoldPackage.readme_content project_name)
           (nl +:+ "from " +:+ project_name +:+ ".base import BaseClass" +:+ nl).
Proof.
  intros Hrun P.
  apply create_project_structure_inv in Hrun as (K & Ks & Hat & _).
  destruct Hat as [HP _ _ _ _ _ _ _ _ [mdp Hp] [mdr Hr] _ _].
  split; [by eapply read_file_child; [exact HP|solve_simple|]|]. split.
  { unfold ScaffoldPackage.pyproject_content, unlines.
    do 9 apply contains_app_r.
    eexists EmptyString, _. rewrite !append_assoc. reflexivity. }
  split; [by eapply read_file_child; [exact HP|solve_simple|]|]. split.
  { unfold ScaffoldPackage.readme_content, unlines.
    eexists. rewrite !append_assoc. reflexivity. }
  unfold ScaffoldPackage.readme_content, unlines.
  do 19 apply contains_app_r.
  eexists EmptyString, _. rewrite !append_assoc. reflexivity.
Qed.

Lemma package_name_in_pyproject_and_readme_witness :
  read_file (world_after (ScaffoldPackage.create_project_structure "mypkg" (parse_path "/tmp"))
                         tmp_world)
            (parse_path "/tmp" </> "mypkg" </> "pyproject.toml")
  = Ok (ScaffoldPackage.pyproject_content "mypkg").
Proof.
  refine (proj1 (package_name_in_pyproject_and_readme "mypkg" (parse_path "/tmp") tmp_world
                   _ tt _)).
  vm_compute. reflexivity.
Defined.






